(** * syst.c: a simple system-wide monitoring program (pfmon-1.1/examples)

    Shallow embedding of [main] and [fatal_error] of
    [src/pfmon-1.1/examples/syst.c].

    The program is one straight line of calls into the pfm library and the
    perfmon system call, each checked and each fatal on failure.  The
    library, the kernel and the C runtime are collaborators of the program:
    they are gathered in a record [environment] over which [main] is
    parameterised, and every call the program makes is logged, with its
    arguments, in a trace.  A run of [main] is a function from the initial
    world (kernel state and trace so far) to an outcome (a return value of
    [main] or an [exit] status) and a final world.

    Conventions.
    - C [int]/[unsigned] values are [Z]; [argc] is the length of [argv].
    - The arrays [evt.pfp_evt], [pc] and [pd] are lists of the size the
      headers give them, zero-filled by [memset]; an index is assumed to be
      within the array (C leaves the other case undefined); the list
      operations used ([nth] with the zero entry, [set_nth]) are inert
      outside.
    - The headers [<perfmon/pfmlib.h>] and [<perfmon/perfmon.h>] are not
      part of the sources: their constants are the fields of
      [perfmon_headers], their structures are records with the fields that
      syst.c touches. *)

From Stdlib Require Import ZArith List String Ascii Bool Arith Lia DecimalString.
Import ListNotations.
Local Open Scope string_scope.
Local Open Scope Z_scope.

(** ** Data of the perfmon interface *)

Record perfmon_headers : Type := {
  PFMLIB_SUCCESS : Z;
  PMU_MAX_COUNTERS : nat;
  PMU_MAX_PMCS : nat;
  PMU_MAX_PMDS : nat;
  PFM_PLM0 : Z;
  PFM_FL_INHERIT_NONE : Z;
  PFM_FL_SYSTEM_WIDE : Z;
  ENOSYS : Z
}.

(** The commands of [perfmonctl] that syst.c issues. *)
Inductive perfmon_cmd : Type :=
| PFM_CREATE_CONTEXT
| PFM_ENABLE
| PFM_WRITE_PMCS
| PFM_WRITE_PMDS
| PFM_START
| PFM_STOP
| PFM_READ_PMDS
| PFM_DESTROY_CONTEXT.

Definition perfmon_cmd_eqb (a b : perfmon_cmd) : bool :=
  match a, b with
  | PFM_CREATE_CONTEXT, PFM_CREATE_CONTEXT
  | PFM_ENABLE, PFM_ENABLE
  | PFM_WRITE_PMCS, PFM_WRITE_PMCS
  | PFM_WRITE_PMDS, PFM_WRITE_PMDS
  | PFM_START, PFM_START
  | PFM_STOP, PFM_STOP
  | PFM_READ_PMDS, PFM_READ_PMDS
  | PFM_DESTROY_CONTEXT, PFM_DESTROY_CONTEXT => true
  | _, _ => false
  end.

(** [pfarg_reg_t]: one PMC or PMD register argument. *)
Record pfarg_reg_t : Type := {
  reg_num : Z;      (* unsigned int  *)
  reg_value : Z     (* unsigned long *)
}.

(** [pfarg_context_t]. *)
Record pfarg_context_t : Type := {
  ctx_flags : Z;
  ctx_cpu_mask : Z  (* unsigned long *)
}.

(** [pfmlib_param_t]. *)
Record pfmlib_param_t : Type := {
  pfp_evt : list Z;
  pfp_count : Z;
  pfp_dfl_plm : Z;
  pfp_pm : Z
}.

(** The [void *arg] of [perfmonctl] together with what it points to. *)
Inductive perfmon_arg : Type :=
| Arg_null
| Arg_ctx (ctx : pfarg_context_t)
| Arg_regs (regs : list pfarg_reg_t).

(** What the program does to the outside, in program order. *)
Inductive io : Type :=
| Lib_initialize
| Lib_get_num_counters
| Lib_set_options (pfm_debug : Z)
| Lib_find_event (name : string) (i : nat)
| Lib_dispatch_events (evt : pfmlib_param_t) (cnt : Z)
| Lib_get_event_name (ev : Z)
| Sys_perfmonctl (pid : Z) (cmd : perfmon_cmd) (arg : perfmon_arg) (n : Z)
| Sys_getchar
| Stdout (s : string)
| Stderr (s : string).

(** The collaborators.  [K] is the state of the kernel (and of the PMU
    behind it).  [perfmonctl] returns its [int] result and the next kernel
    state, from which [errno] is read; [read_pmd k r] is what
    [PFM_READ_PMDS] stores in [reg_value] of an entry whose [reg_num] is
    [r]; the other commands leave the caller's arrays as they are.
    [getchar] blocks while the world goes on. *)
Record environment (K : Type) : Type := {
  getpid : Z;
  pfm_initialize : Z;
  pfm_get_num_counters : Z;
  pfm_find_event : string -> Z -> Z * Z;
  pfm_dispatch_events :
    pfmlib_param_t -> list pfarg_reg_t -> Z -> Z * list pfarg_reg_t * Z;
  pfm_strerror : Z -> string;
  pfm_get_event_name : Z -> string;
  perfmonctl : K -> Z -> perfmon_cmd -> perfmon_arg -> Z -> Z * K;
  errno : K -> Z;
  strerror : Z -> string;
  read_pmd : K -> Z -> Z;
  getchar : K -> K
}.

Arguments getpid {K}.
Arguments pfm_initialize {K}.
Arguments pfm_get_num_counters {K}.
Arguments pfm_find_event {K}.
Arguments pfm_dispatch_events {K}.
Arguments pfm_strerror {K}.
Arguments pfm_get_event_name {K}.
Arguments perfmonctl {K}.
Arguments errno {K}.
Arguments strerror {K}.
Arguments read_pmd {K}.
Arguments getchar {K}.

(** ** printf *)

Definition nl : string := String (ascii_of_nat 10) EmptyString.

(** [%d] *)
Definition fmt_d (z : Z) : string := NilZero.string_of_int (Z.to_int z).

(** [%u] and [%lu]: the argument as an unsigned integer of [w] bits. *)
Definition fmt_u (w : Z) (z : Z) : string :=
  NilZero.string_of_uint (N.to_uint (Z.to_N (z mod 2 ^ w))).

(** A minimal field width: right-justified, padded with spaces. *)
Definition pad_left (width : nat) (s : string) : string :=
  string_of_list_ascii (repeat " "%char (width - String.length s)) ++ s.

(** ** Arrays *)

Definition zero_reg : pfarg_reg_t := {| reg_num := 0; reg_value := 0 |}.

Fixpoint set_nth {A : Type} (i : nat) (x : A) (l : list A) : list A :=
  match l, i with
  | [], _ => []
  | _ :: t, O => x :: t
  | h :: t, S j => h :: set_nth j x t
  end.

Definition set_reg_num (r : pfarg_reg_t) (n : Z) : pfarg_reg_t :=
  {| reg_num := n; reg_value := reg_value r |}.

Definition set_reg_value (r : pfarg_reg_t) (v : Z) : pfarg_reg_t :=
  {| reg_num := reg_num r; reg_value := v |}.

(** [for (i=0; i < count; i++) pd[i].reg_num = pc[i].reg_num;] from index
    [i] on, [n] iterations left. *)
Fixpoint copy_reg_nums (n : nat) (i : nat) (pc pd : list pfarg_reg_t)
  : list pfarg_reg_t :=
  match n with
  | O => pd
  | S m =>
      copy_reg_nums m (S i) pc
        (set_nth i (set_reg_num (nth i pd zero_reg) (reg_num (nth i pc zero_reg))) pd)
  end.

(** ** Runs *)

Inductive outcome (A : Type) : Type :=
| Done (a : A)
| Exit (status : Z).

Arguments Done {A}.
Arguments Exit {A}.

Record world (K : Type) : Type := {
  w_kernel : K;
  w_trace : list io
}.

Arguments w_kernel {K}.
Arguments w_trace {K}.

Definition M (K A : Type) : Type := world K -> outcome A * world K.

Definition ret {K A} (a : A) : M K A := fun w => (Done a, w).

Definition bind {K A B} (m : M K A) (f : A -> M K B) : M K B :=
  fun w =>
    match m w with
    | (Done a, w') => f a w'
    | (Exit s, w') => (Exit s, w')
    end.

Declare Scope syst_scope.
Delimit Scope syst_scope with syst.
Notation "x <- c ;; k" := (bind c (fun x => k))
  (at level 61, c at next level, right associativity) : syst_scope.
Notation "c ;; k" := (bind c (fun _ => k))
  (at level 61, right associativity) : syst_scope.
Local Open Scope syst_scope.

Definition emit {K} (e : io) : M K unit :=
  fun w => (Done tt, {| w_kernel := w_kernel w; w_trace := w_trace w ++ [e] |}).

(** [exit(status)] *)
Definition exit {K A} (status : Z) : M K A := fun w => (Exit status, w).

Definition printf {K} (s : string) : M K unit := emit (Stdout s).

(** [fatal_error]: the message goes to [stderr], then [exit(1)]. *)
Definition fatal_error {K} (msg : string) : M K unit :=
  emit (Stderr msg) ;; exit 1.

Definition exit_status (o : outcome Z) : Z :=
  match o with
  | Done v => v
  | Exit s => s
  end.

(** ** The program *)

(** [#define WHICH_CPU 0] *)
Definition WHICH_CPU : Z := 0.

(** [static char *event_list[]], up to its terminating [NULL]. *)
Definition event_list : list string := ["cpu_cycles"; "IA64_INST_RETIRED"].

Section Syst.

Context (hdr : perfmon_headers) {K : Type} (E : environment K).

(** [#define NUM_PMCS PMU_MAX_PMCS] and [#define NUM_PMDS PMU_MAX_PMDS] *)
Definition NUM_PMCS : nat := PMU_MAX_PMCS hdr.
Definition NUM_PMDS : nat := PMU_MAX_PMDS hdr.

Definition sys_perfmonctl (cmd : perfmon_cmd) (arg : perfmon_arg) (n : Z)
  : M K Z :=
  fun w =>
    let (r, k) := perfmonctl E (w_kernel w) (getpid E) cmd arg n in
    (Done r,
     {| w_kernel := k;
        w_trace := w_trace w ++ [Sys_perfmonctl (getpid E) cmd arg n] |}).

Definition get_errno : M K Z := fun w => (Done (errno E (w_kernel w)), w).

Definition sys_getchar : M K unit :=
  fun w =>
    (Done tt,
     {| w_kernel := getchar E (w_kernel w);
        w_trace := w_trace w ++ [Sys_getchar] |}).

(** What a successful [PFM_READ_PMDS] on [n] entries leaves in [pd]. *)
Definition store_pmds (k : K) (n : nat) (pd : list pfarg_reg_t)
  : list pfarg_reg_t :=
  map (fun r => set_reg_value r (read_pmd E k (reg_num r) mod 2 ^ 64))
      (firstn n pd)
  ++ skipn n pd.

(** [for (i=0; *p; i++, p++)]: resolves the names left in [p] into
    [evt.pfp_evt+i]; returns the final [i] and the array. *)
Fixpoint find_events (p : list string) (i : nat) (evts : list Z)
  : M K (nat * list Z) :=
  match p with
  | [] => ret (i, evts)
  | name :: p' =>
      emit (Lib_find_event name i) ;;
      let (r, ev) := pfm_find_event E name 0 in
      (if r =? PFMLIB_SUCCESS hdr then ret tt
       else fatal_error ("Cannot find " ++ name ++ " event" ++ nl)) ;;
      find_events p' (S i) (set_nth i ev evts)
  end.

(** One line of the result: ["PMD%u %20lu %s\n"]. *)
Definition result_row (r : pfarg_reg_t) (name : string) : string :=
  "PMD" ++ fmt_u 32 (reg_num r) ++ " "
  ++ pad_left 20 (fmt_u 64 (reg_value r)) ++ " " ++ name ++ nl.

(** [for (i=0; i < evt.pfp_count; i++)] of the printing, from index [i]
    on, [n] iterations left. *)
Fixpoint print_results (n i : nat) (evts : list Z) (pd : list pfarg_reg_t)
  : M K unit :=
  match n with
  | O => ret tt
  | S m =>
      emit (Lib_get_event_name (nth i evts 0)) ;;
      printf (result_row (nth i pd zero_reg)
                (pfm_get_event_name E (nth i evts 0))) ;;
      print_results m (S i) evts pd
  end.

(** The context that [main] hands to [PFM_CREATE_CONTEXT]. *)
Definition ctx0 : pfarg_context_t :=
  {| ctx_flags := Z.lor (PFM_FL_INHERIT_NONE hdr) (PFM_FL_SYSTEM_WIDE hdr);
     ctx_cpu_mask := Z.shiftl 1 WHICH_CPU mod 2 ^ 64 |}.

(** From [PFM_CREATE_CONTEXT] to the end of [main]. *)
Definition session (evt : pfmlib_param_t) (pc : list pfarg_reg_t) (cnt : Z)
  : M K Z :=
  r <- sys_perfmonctl PFM_CREATE_CONTEXT (Arg_ctx ctx0) 1 ;;
  (if r =? -1 then
     e <- get_errno ;;
     (if e =? ENOSYS hdr then
        fatal_error
          ("Your kernel does not have performance monitoring support!" ++ nl)
      else ret tt) ;;
     fatal_error ("Can't create PFM context " ++ strerror E e ++ nl)
   else ret tt) ;;
  r <- sys_perfmonctl PFM_ENABLE Arg_null 0 ;;
  (if r =? -1 then
     e <- get_errno ;;
     fatal_error ("child: perfmonctl error PFM_ENABLE errno " ++ fmt_d e ++ nl)
   else ret tt) ;;
  let pd := copy_reg_nums (Z.to_nat (pfp_count evt)) 0 pc
              (repeat zero_reg NUM_PMDS) in
  r <- sys_perfmonctl PFM_WRITE_PMCS (Arg_regs pc) cnt ;;
  (if r =? -1 then
     e <- get_errno ;;
     fatal_error
       ("child: perfmonctl error PFM_WRITE_PMCS errno " ++ fmt_d e ++ nl)
   else ret tt) ;;
  r <- sys_perfmonctl PFM_WRITE_PMDS (Arg_regs pd) (pfp_count evt) ;;
  (if r =? -1 then
     e <- get_errno ;;
     fatal_error
       ("child: perfmonctl error PFM_WRITE_PMDS errno " ++ fmt_d e ++ nl)
   else ret tt) ;;
  r <- sys_perfmonctl PFM_START Arg_null 0 ;;
  (if r =? -1 then
     e <- get_errno ;;
     fatal_error
       ("child: perfmonctl error PFM_WRITE_PMCS errno " ++ fmt_d e ++ nl)
   else ret tt) ;;
  printf ("<Press a key to stop monitoring>" ++ nl) ;;
  sys_getchar ;;
  r <- sys_perfmonctl PFM_STOP Arg_null 0 ;;
  (if r =? -1 then
     e <- get_errno ;;
     fatal_error
       ("child: perfmonctl error PFM_WRITE_PMCS errno " ++ fmt_d e ++ nl)
   else ret tt) ;;
  printf ("<Monitoring stopped on CPU" ++ fmt_d WHICH_CPU ++ ">" ++ nl ++ nl) ;;
  r <- sys_perfmonctl PFM_READ_PMDS (Arg_regs pd) (pfp_count evt) ;;
  if r =? -1 then
    e <- get_errno ;;
    fatal_error ("perfmonctl error READ_PMDS errno " ++ fmt_d e ++ nl) ;;
    ret (-1)
  else
    pd' <- (fun w => (Done (store_pmds (w_kernel w)
                              (Z.to_nat (pfp_count evt)) pd), w)) ;;
    print_results (Z.to_nat (pfp_count evt)) 0 (pfp_evt evt) pd' ;;
    r <- sys_perfmonctl PFM_DESTROY_CONTEXT Arg_null 0 ;;
    (if r =? -1 then
       e <- get_errno ;;
       fatal_error
         ("child: perfmonctl error PFM_DESTROY errno " ++ fmt_d e ++ nl)
     else ret tt) ;;
    ret 0.

(** From the event loop to the end of [main], for the list [p] chosen. *)
Definition monitor (p : list string) : M K Z :=
  ie <- find_events p 0 (repeat 0 (PMU_MAX_COUNTERS hdr)) ;;
  let evt := {| pfp_evt := snd ie;
                pfp_count := Z.of_nat (fst ie);
                pfp_dfl_plm := PFM_PLM0 hdr;
                pfp_pm := 1 |} in
  emit (Lib_dispatch_events evt (Z.of_nat NUM_PMCS)) ;;
  let '(r, pc, cnt) :=
    pfm_dispatch_events E evt (repeat zero_reg NUM_PMCS) (Z.of_nat NUM_PMCS) in
  (if r =? PFMLIB_SUCCESS hdr then ret tt
   else fatal_error ("cannot configure events: " ++ pfm_strerror E r ++ nl)) ;;
  session evt pc cnt.

Definition main (argv : list string) : M K Z :=
  let argc := Z.of_nat (List.length argv) in
  emit Lib_initialize ;;
  (if pfm_initialize E =? PFMLIB_SUCCESS hdr then ret tt
   else printf ("Can't initialize library" ++ nl) ;; exit 1) ;;
  emit Lib_get_num_counters ;;
  (if argc - 1 >? pfm_get_num_counters E
   then printf ("Too many events specified" ++ nl) ;; exit 1
   else ret tt) ;;
  emit (Lib_set_options 0) ;;
  monitor (if argc >? 1 then tl argv else event_list).

(** A run of the process: [main] started on an empty trace. *)
Definition run (argv : list string) (k : K) : outcome Z * world K :=
  main argv {| w_kernel := k; w_trace := [] |}.

(** ** The shape of the runs

    The traces that [main] can leave, written out; [main_run_shape] below
    proves that every run has one of these shapes. *)

Definition log (tr : list io) (w : world K) : world K :=
  {| w_kernel := w_kernel w; w_trace := w_trace w ++ tr |}.

(** [p = argc > 1 ? argv+1 : event_list] *)
Definition requested (argv : list string) : list string :=
  if Z.of_nat (List.length argv) >? 1 then tl argv else event_list.

Definition resolves (name : string) : bool :=
  fst (pfm_find_event E name 0) =? PFMLIB_SUCCESS hdr.

Fixpoint find_calls (p : list string) (i : nat) : list io :=
  match p with
  | [] => []
  | name :: p' => Lib_find_event name i :: find_calls p' (S i)
  end.

Fixpoint store_events (p : list string) (i : nat) (evts : list Z) : list Z :=
  match p with
  | [] => evts
  | name :: p' =>
      store_events p' (S i) (set_nth i (snd (pfm_find_event E name 0)) evts)
  end.

(** [evt] as [main] hands it to [pfm_dispatch_events]. *)
Definition evt_of (p : list string) : pfmlib_param_t :=
  {| pfp_evt := store_events p 0 (repeat 0 (PMU_MAX_COUNTERS hdr));
     pfp_count := Z.of_nat (List.length p);
     pfp_dfl_plm := PFM_PLM0 hdr;
     pfp_pm := 1 |}.

(** [pd] as [main] hands it to [PFM_WRITE_PMDS] and [PFM_READ_PMDS]. *)
Definition pd_of (evt : pfmlib_param_t) (pc : list pfarg_reg_t)
  : list pfarg_reg_t :=
  copy_reg_nums (Z.to_nat (pfp_count evt)) 0 pc (repeat zero_reg NUM_PMDS).

Definition session_head (evt : pfmlib_param_t) (pc : list pfarg_reg_t)
  (cnt : Z) : list io :=
  [ Sys_perfmonctl (getpid E) PFM_CREATE_CONTEXT (Arg_ctx ctx0) 1;
    Sys_perfmonctl (getpid E) PFM_ENABLE Arg_null 0;
    Sys_perfmonctl (getpid E) PFM_WRITE_PMCS (Arg_regs pc) cnt;
    Sys_perfmonctl (getpid E) PFM_WRITE_PMDS (Arg_regs (pd_of evt pc))
      (pfp_count evt);
    Sys_perfmonctl (getpid E) PFM_START Arg_null 0;
    Stdout ("<Press a key to stop monitoring>" ++ nl);
    Sys_getchar;
    Sys_perfmonctl (getpid E) PFM_STOP Arg_null 0;
    Stdout ("<Monitoring stopped on CPU" ++ fmt_d WHICH_CPU ++ ">" ++ nl ++ nl);
    Sys_perfmonctl (getpid E) PFM_READ_PMDS (Arg_regs (pd_of evt pc))
      (pfp_count evt) ].

Fixpoint rows_io (n i : nat) (evts : list Z) (pd : list pfarg_reg_t)
  : list io :=
  match n with
  | O => []
  | S m =>
      Lib_get_event_name (nth i evts 0)
      :: Stdout (result_row (nth i pd zero_reg)
                   (pfm_get_event_name E (nth i evts 0)))
      :: rows_io m (S i) evts pd
  end.

(** The rows printed once [PFM_READ_PMDS] has returned in kernel state
    [kr]. *)
Definition result_rows (evt : pfmlib_param_t) (pc : list pfarg_reg_t) (kr : K)
  : list io :=
  rows_io (Z.to_nat (pfp_count evt)) 0 (pfp_evt evt)
    (store_pmds kr (Z.to_nat (pfp_count evt)) (pd_of evt pc)).

Definition lib_prelude : list io :=
  [Lib_initialize; Lib_get_num_counters; Lib_set_options 0].

(** The trace up to and including the call of [pfm_dispatch_events]. *)
Definition dispatch_prelude (p : list string) : list io :=
  lib_prelude ++ find_calls p 0
  ++ [Lib_dispatch_events (evt_of p) (Z.of_nat NUM_PMCS)].

(** The run gets as far as the session: the library is initialised, the
    count passes the check, every name resolves and the events are
    dispatched to [cnt] entries of [pc]. *)
Definition reaches_session (argv : list string) (pc : list pfarg_reg_t)
  (cnt : Z) : Prop :=
  pfm_initialize E = PFMLIB_SUCCESS hdr
  /\ Z.of_nat (List.length argv) - 1 <= pfm_get_num_counters E
  /\ forallb resolves (requested argv) = true
  /\ pfm_dispatch_events E (evt_of (requested argv))
       (repeat zero_reg NUM_PMCS) (Z.of_nat NUM_PMCS)
     = (PFMLIB_SUCCESS hdr, pc, cnt).

(** The shapes of [session]: it stops at the first call of [perfmonctl]
    that fails, after [j] of the ten steps of [session_head] or at
    [PFM_DESTROY_CONTEXT]; [kr] is the kernel state in which
    [PFM_READ_PMDS] returned. *)
Inductive session_shape (evt : pfmlib_param_t) (pc : list pfarg_reg_t)
  (cnt : Z) : outcome Z -> list io -> Prop :=
| Session_failed j msg :
    In j [1; 2; 3; 4; 5; 8; 10]%nat ->
    session_shape evt pc cnt (Exit 1)
      (firstn j (session_head evt pc cnt) ++ [Stderr msg])
| Session_destroy_failed kr msg :
    session_shape evt pc cnt (Exit 1)
      (session_head evt pc cnt ++ result_rows evt pc kr
       ++ [Sys_perfmonctl (getpid E) PFM_DESTROY_CONTEXT Arg_null 0;
           Stderr msg])
| Session_success kr :
    session_shape evt pc cnt (Done 0)
      (session_head evt pc cnt ++ result_rows evt pc kr
       ++ [Sys_perfmonctl (getpid E) PFM_DESTROY_CONTEXT Arg_null 0]).

Inductive run_shape (argv : list string) : outcome Z -> list io -> Prop :=
| Shape_no_library :
    pfm_initialize E <> PFMLIB_SUCCESS hdr ->
    run_shape argv (Exit 1)
      [Lib_initialize; Stdout ("Can't initialize library" ++ nl)]
| Shape_too_many :
    pfm_initialize E = PFMLIB_SUCCESS hdr ->
    Z.of_nat (List.length argv) - 1 > pfm_get_num_counters E ->
    run_shape argv (Exit 1)
      [Lib_initialize; Lib_get_num_counters;
       Stdout ("Too many events specified" ++ nl)]
| Shape_unknown_event good bad rest :
    pfm_initialize E = PFMLIB_SUCCESS hdr ->
    Z.of_nat (List.length argv) - 1 <= pfm_get_num_counters E ->
    requested argv = (good ++ bad :: rest)%list ->
    forallb resolves good = true ->
    resolves bad = false ->
    run_shape argv (Exit 1)
      (lib_prelude ++ find_calls (good ++ [bad]) 0
       ++ [Stderr ("Cannot find " ++ bad ++ " event" ++ nl)])
| Shape_not_dispatched r pc cnt :
    pfm_initialize E = PFMLIB_SUCCESS hdr ->
    Z.of_nat (List.length argv) - 1 <= pfm_get_num_counters E ->
    forallb resolves (requested argv) = true ->
    pfm_dispatch_events E (evt_of (requested argv))
      (repeat zero_reg NUM_PMCS) (Z.of_nat NUM_PMCS) = (r, pc, cnt) ->
    r <> PFMLIB_SUCCESS hdr ->
    run_shape argv (Exit 1)
      (dispatch_prelude (requested argv)
       ++ [Stderr ("cannot configure events: " ++ pfm_strerror E r ++ nl)])
| Shape_session_failed pc cnt j msg :
    reaches_session argv pc cnt ->
    In j [1; 2; 3; 4; 5; 8; 10]%nat ->
    run_shape argv (Exit 1)
      (dispatch_prelude (requested argv)
       ++ firstn j (session_head (evt_of (requested argv)) pc cnt)
       ++ [Stderr msg])
| Shape_destroy_failed pc cnt kr msg :
    reaches_session argv pc cnt ->
    run_shape argv (Exit 1)
      (dispatch_prelude (requested argv)
       ++ session_head (evt_of (requested argv)) pc cnt
       ++ result_rows (evt_of (requested argv)) pc kr
       ++ [Sys_perfmonctl (getpid E) PFM_DESTROY_CONTEXT Arg_null 0;
           Stderr msg])
| Shape_success pc cnt kr :
    reaches_session argv pc cnt ->
    run_shape argv (Done 0)
      (dispatch_prelude (requested argv)
       ++ session_head (evt_of (requested argv)) pc cnt
       ++ result_rows (evt_of (requested argv)) pc kr
       ++ [Sys_perfmonctl (getpid E) PFM_DESTROY_CONTEXT Arg_null 0]).

(** What [pfm_dispatch_events] answers to the request of [argv]. *)
Definition dispatched (argv : list string) : Z * list pfarg_reg_t * Z :=
  pfm_dispatch_events E (evt_of (requested argv))
    (repeat zero_reg NUM_PMCS) (Z.of_nat NUM_PMCS).

(** The calls of [perfmonctl] of a complete run, with their arguments. *)
Definition planned_calls (argv : list string)
  : list (perfmon_cmd * perfmon_arg * Z) :=
  let evt := evt_of (requested argv) in
  let pc := snd (fst (dispatched argv)) in
  let cnt := snd (dispatched argv) in
  [ (PFM_CREATE_CONTEXT, Arg_ctx ctx0, 1);
    (PFM_ENABLE, Arg_null, 0);
    (PFM_WRITE_PMCS, Arg_regs pc, cnt);
    (PFM_WRITE_PMDS, Arg_regs (pd_of evt pc), pfp_count evt);
    (PFM_START, Arg_null, 0);
    (PFM_STOP, Arg_null, 0);
    (PFM_READ_PMDS, Arg_regs (pd_of evt pc), pfp_count evt);
    (PFM_DESTROY_CONTEXT, Arg_null, 0) ].

(** The line printed for the [i]-th requested event, [name], when the
    events were dispatched to [pc] and the counters read in kernel state
    [kr]. *)
Definition expected_row (pc : list pfarg_reg_t) (kr : K) (i : nat)
  (name : string) : string :=
  result_row
    {| reg_num := reg_num (nth i pc zero_reg);
       reg_value := read_pmd E kr (reg_num (nth i pc zero_reg)) mod 2 ^ 64 |}
    (pfm_get_event_name E (snd (pfm_find_event E name 0))).

End Syst.

(** ** Reading a trace *)

(** The calls of [perfmonctl], in order: command, argument, count. *)
Definition session_calls (tr : list io)
  : list (perfmon_cmd * perfmon_arg * Z) :=
  flat_map (fun e => match e with
                     | Sys_perfmonctl _ cmd arg n => [(cmd, arg, n)]
                     | _ => []
                     end) tr.

(** The commands sent to [perfmonctl], in order. *)
Definition session_cmds (tr : list io) : list perfmon_cmd :=
  flat_map (fun e => match e with
                     | Sys_perfmonctl _ cmd _ _ => [cmd]
                     | _ => []
                     end) tr.

(** What went to [stdout], in order. *)
Definition stdout_of (tr : list io) : list string :=
  flat_map (fun e => match e with
                     | Stdout s => [s]
                     | _ => []
                     end) tr.

(** A mask with exactly one bit set: bit [c], and no other. *)
Definition one_bit_set (m : Z) : Prop :=
  exists c, 0 <= c /\ forall i, Z.testbit m i = (i =? c).

(** ** The library behind the calls

    [pfm_find_event] and [pfm_dispatch_events] belong to the pfm library,
    whose code is not among the sources; syst.c only calls them. *)

(** Modelled from the spec: [pfm_find_event], the Event Resolver (4.1).
    The catalog is a fixed, read-only table from names to descriptors;
    [resolve] is pure and fails with [UnknownEvent] when the name matches
    no entry. *)
Inductive resolve_error : Type :=
| UnknownEvent.

Definition catalog : Type := list (string * Z).

Fixpoint resolve (cat : catalog) (name : string) : resolve_error + Z :=
  match cat with
  | [] => inl UnknownEvent
  | (n, d) :: cat' => if String.eqb name n then inr d else resolve cat' name
  end.

(** Modelled from the spec: the reverse lookup of the catalog (4.1),
    [pfm_get_event_name]. *)
Fixpoint event_name (cat : catalog) (d : Z) : string :=
  match cat with
  | [] => ""
  | (n, d') :: cat' => if d =? d' then n else event_name cat' d
  end.

(** Modelled from the spec: [resolve] behind the C interface of
    [pfm_find_event]: a status, and the descriptor stored through the
    pointer.  A failure is any status other than [PFMLIB_SUCCESS]. *)
Definition spec_find_event (hdr : perfmon_headers) (cat : catalog)
  (name : string) (unused : Z) : Z * Z :=
  match resolve cat name with
  | inr d => (PFMLIB_SUCCESS hdr, d)
  | inl UnknownEvent => (PFMLIB_SUCCESS hdr - 1, 0)
  end.

(** Modelled from the spec: [pfm_dispatch_events], the Counter Allocator
    (4.2).  Events are placed in the order supplied; each takes the lowest
    free physical register among those the hardware makes eligible for it;
    the allocator fails with [TooManyEvents] when the request is larger
    than the platform's capacity and with [UnsatisfiableConstraint] when
    an event finds no eligible register free. *)
Inductive alloc_error : Type :=
| TooManyEvents
| UnsatisfiableConstraint.

Record policy : Type := {
  privilege_level : Z;
  system_wide : bool
}.

Record CounterAssignment : Type := {
  ca_event : Z;
  ca_reg : nat;
  ca_plm : Z;
  ca_system_wide : bool
}.

(** The counters of a platform: registers [first_counter], ...,
    [first_counter + capacity - 1], and which of them may host an event. *)
Record pmu : Type := {
  first_counter : nat;
  capacity : nat;
  eligible : Z -> nat -> bool
}.

Definition counters (pm : pmu) : list nat :=
  seq (first_counter pm) (capacity pm).

Definition in_bounds (pm : pmu) (r : nat) : Prop :=
  (first_counter pm <= r < first_counter pm + capacity pm)%nat.

Definition is_free (used : list nat) (r : nat) : bool :=
  negb (existsb (Nat.eqb r) used).

(** The lowest free register eligible for [e]. *)
Definition lowest_free (pm : pmu) (used : list nat) (e : Z) : option nat :=
  find (fun r => eligible pm e r && is_free used r) (counters pm).

Fixpoint place (pm : pmu) (pol : policy) (used : list nat) (events : list Z)
  : alloc_error + list CounterAssignment :=
  match events with
  | [] => inr []
  | e :: events' =>
      match lowest_free pm used e with
      | None => inl UnsatisfiableConstraint
      | Some r =>
          match place pm pol (r :: used) events' with
          | inl err => inl err
          | inr asg =>
              inr ({| ca_event := e; ca_reg := r;
                      ca_plm := privilege_level pol;
                      ca_system_wide := system_wide pol |} :: asg)
          end
      end
  end.

Definition allocate (pm : pmu) (events : list Z) (pol : policy)
  : alloc_error + list CounterAssignment :=
  if (capacity pm <? List.length events)%nat then inl TooManyEvents
  else place pm pol [] events.

(** A placement conflict (4.2): an event, at its turn, cannot be placed on
    any remaining free register.  [conflict_free pm used events] says that
    none of [events] meets one when the registers [used] are taken. *)
Fixpoint conflict_free (pm : pmu) (used : list nat) (events : list Z) : Prop :=
  match events with
  | [] => True
  | e :: events' =>
      exists r, lowest_free pm used e = Some r
                /\ conflict_free pm (r :: used) events'
  end.

Definition no_placement_conflict (pm : pmu) (events : list Z) : Prop :=
  conflict_free pm [] events.

(** Modelled from the spec: [allocate] behind the C interface of
    [pfm_dispatch_events]: the assignments are written at the head of
    [pc], in request order, and their number is stored in [*cnt].  The
    control word is that of an Itanium counter configuration register
    (privilege mask in bits 0-3, privileged-monitor bit 6, event select
    from bit 8). *)
Definition control_word (a : CounterAssignment) : Z :=
  Z.lor (Z.land (ca_plm a) 15)
    (Z.lor (if ca_system_wide a then 64 else 0) (Z.shiftl (ca_event a) 8)).

Definition pmc_of (a : CounterAssignment) : pfarg_reg_t :=
  {| reg_num := Z.of_nat (ca_reg a); reg_value := control_word a |}.

Definition spec_dispatch_events (hdr : perfmon_headers) (pm : pmu)
  (evt : pfmlib_param_t) (pc : list pfarg_reg_t) (cnt : Z)
  : Z * list pfarg_reg_t * Z :=
  match allocate pm (firstn (Z.to_nat (pfp_count evt)) (pfp_evt evt))
          {| privilege_level := pfp_dfl_plm evt;
             system_wide := negb (pfp_pm evt =? 0) |} with
  | inl TooManyEvents => (PFMLIB_SUCCESS hdr - 2, pc, cnt)
  | inl UnsatisfiableConstraint => (PFMLIB_SUCCESS hdr - 3, pc, cnt)
  | inr asg =>
      (PFMLIB_SUCCESS hdr,
       (map pmc_of asg ++ skipn (List.length asg) pc)%list,
       Z.of_nat (List.length asg))
  end.

(** ** An Itanium-like environment, to run the program on

    Four counters, PMC/PMD 4 to 7.  The kernel is a register file and a
    clock: every command succeeds, [PFM_WRITE_PMDS] stores the values,
    [PFM_START] and [PFM_STOP] switch counting on and off, and while the
    program waits in [getchar] a running PMU adds to each counter. *)

Definition itanium_headers : perfmon_headers :=
  {| PFMLIB_SUCCESS := 0;
     PMU_MAX_COUNTERS := 4;
     PMU_MAX_PMCS := 16;
     PMU_MAX_PMDS := 18;
     PFM_PLM0 := 1;
     PFM_FL_INHERIT_NONE := 0;
     PFM_FL_SYSTEM_WIDE := 2;
     ENOSYS := 38 |}.

Definition itanium_catalog : catalog :=
  [("cpu_cycles", 18); ("IA64_INST_RETIRED", 8); ("L2_MISSES", 106)].

(** [L2_MISSES] (106) is restricted here to PMC/PMD 6 and 7. *)
Definition itanium_pmu : pmu :=
  {| first_counter := 4;
     capacity := 4;
     eligible := fun e r => if e =? 106 then (6 <=? r)%nat else true |}.

Record demo_kernel : Type := {
  dk_running : bool;
  dk_pmds : list (Z * Z);
  dk_errno : Z
}.

Fixpoint dk_lookup (r : Z) (pmds : list (Z * Z)) : Z :=
  match pmds with
  | [] => 0
  | (r', v) :: t => if r =? r' then v else dk_lookup r t
  end.

Definition demo_perfmonctl (k : demo_kernel) (pid : Z) (cmd : perfmon_cmd)
  (arg : perfmon_arg) (n : Z) : Z * demo_kernel :=
  match cmd, arg with
  | PFM_WRITE_PMDS, Arg_regs regs =>
      (0, {| dk_running := dk_running k;
             dk_pmds := map (fun r => (reg_num r, reg_value r))
                          (firstn (Z.to_nat n) regs);
             dk_errno := dk_errno k |})
  | PFM_START, _ =>
      (0, {| dk_running := true; dk_pmds := dk_pmds k;
             dk_errno := dk_errno k |})
  | PFM_STOP, _ =>
      (0, {| dk_running := false; dk_pmds := dk_pmds k;
             dk_errno := dk_errno k |})
  | _, _ => (0, k)
  end.

Definition demo_getchar (k : demo_kernel) : demo_kernel :=
  if dk_running k then
    {| dk_running := true;
       dk_pmds := map (fun rv => (fst rv, snd rv + 1000 * fst rv)) (dk_pmds k);
       dk_errno := dk_errno k |}
  else k.

Definition demo_env (pm : pmu) : environment demo_kernel :=
  {| getpid := 4242;
     pfm_initialize := 0;
     pfm_get_num_counters := Z.of_nat (capacity pm);
     pfm_find_event := spec_find_event itanium_headers itanium_catalog;
     pfm_dispatch_events := spec_dispatch_events itanium_headers pm;
     pfm_strerror := fun r => "error " ++ fmt_d r;
     pfm_get_event_name := event_name itanium_catalog;
     perfmonctl := demo_perfmonctl;
     errno := dk_errno;
     strerror := fun e => "errno " ++ fmt_d e;
     read_pmd := fun k r => dk_lookup r (dk_pmds k);
     getchar := demo_getchar |}.

(** A platform with a single counter, PMC/PMD 4. *)
Definition one_counter_pmu : pmu :=
  {| first_counter := 4; capacity := 1; eligible := fun _ _ => true |}.

Definition demo_kernel0 : demo_kernel :=
  {| dk_running := false; dk_pmds := []; dk_errno := 0 |}.

(** A library that also programs a register of its own: the answer of
    [spec_dispatch_events] followed by one more entry of [pc], PMC 8, so
    that [*cnt] is larger than the number of events (the case the comment
    above [PFM_WRITE_PMCS] in syst.c speaks of). *)
Definition dispatch_with_extra_pmc (hdr : perfmon_headers) (pm : pmu)
  (evt : pfmlib_param_t) (pc : list pfarg_reg_t) (cnt : Z)
  : Z * list pfarg_reg_t * Z :=
  let '(r, pc', cnt') := spec_dispatch_events hdr pm evt pc cnt in
  if r =? PFMLIB_SUCCESS hdr
  then (r,
        set_nth (Z.to_nat cnt') {| reg_num := 8; reg_value := 1 |} pc',
        cnt' + 1)
  else (r, pc', cnt').

Definition demo_env_extra_pmc (pm : pmu) : environment demo_kernel :=
  {| getpid := 4242;
     pfm_initialize := 0;
     pfm_get_num_counters := Z.of_nat (capacity pm);
     pfm_find_event := spec_find_event itanium_headers itanium_catalog;
     pfm_dispatch_events := dispatch_with_extra_pmc itanium_headers pm;
     pfm_strerror := fun r => "error " ++ fmt_d r;
     pfm_get_event_name := event_name itanium_catalog;
     perfmonctl := demo_perfmonctl;
     errno := dk_errno;
     strerror := fun e => "errno " ++ fmt_d e;
     read_pmd := fun k r => dk_lookup r (dk_pmds k);
     getchar := demo_getchar |}.

(** The same environment over a PMU whose counters cannot be stopped:
    what is read is one more than what was stored. *)
Definition demo_env_free_running (pm : pmu) : environment demo_kernel :=
  {| getpid := 4242;
     pfm_initialize := 0;
     pfm_get_num_counters := Z.of_nat (capacity pm);
     pfm_find_event := spec_find_event itanium_headers itanium_catalog;
     pfm_dispatch_events := spec_dispatch_events itanium_headers pm;
     pfm_strerror := fun r => "error " ++ fmt_d r;
     pfm_get_event_name := event_name itanium_catalog;
     perfmonctl := demo_perfmonctl;
     errno := dk_errno;
     strerror := fun e => "errno " ++ fmt_d e;
     read_pmd := fun k r => dk_lookup r (dk_pmds k) + 1;
     getchar := demo_getchar |}.

(** What a caller would find in [pd] that wrote it with [PFM_WRITE_PMDS]
    and read it back at once with [PFM_READ_PMDS]; [main] never does. *)
Definition write_then_read {K : Type} (E : environment K) (k : K)
  (pd : list pfarg_reg_t) (n : Z) : list pfarg_reg_t :=
  let k1 := snd (perfmonctl E k (getpid E) PFM_WRITE_PMDS (Arg_regs pd) n) in
  let k2 := snd (perfmonctl E k1 (getpid E) PFM_READ_PMDS (Arg_regs pd) n) in
  store_pmds E k2 (Z.to_nat n) pd.

(** ** More readings of a trace *)

(** What went to [stderr], in order. *)
Definition stderr_of (tr : list io) : list string :=
  flat_map (fun e => match e with
                     | Stderr s => [s]
                     | _ => []
                     end) tr.

(** The calls of [pfm_find_event]: the name and the index [i] of the slot
    [evt.pfp_evt+i] that receives its descriptor. *)
Definition lookups (tr : list io) : list (string * nat) :=
  flat_map (fun e => match e with
                     | Lib_find_event name i => [(name, i)]
                     | _ => []
                     end) tr.

(** The calls of [pfm_dispatch_events]: [evt] and the incoming [*cnt]. *)
Definition dispatch_calls (tr : list io) : list (pfmlib_param_t * Z) :=
  flat_map (fun e => match e with
                     | Lib_dispatch_events evt cnt => [(evt, cnt)]
                     | _ => []
                     end) tr.

(** The process identifiers given to [perfmonctl], in order. *)
Definition session_pids (tr : list io) : list Z :=
  flat_map (fun e => match e with
                     | Sys_perfmonctl pid _ _ _ => [pid]
                     | _ => []
                     end) tr.

(** The eight commands of a complete session, in the order of [main]. *)
Definition session_order : list perfmon_cmd :=
  [ PFM_CREATE_CONTEXT; PFM_ENABLE; PFM_WRITE_PMCS; PFM_WRITE_PMDS;
    PFM_START; PFM_STOP; PFM_READ_PMDS; PFM_DESTROY_CONTEXT ].

Section Reports.

Context (hdr : perfmon_headers) {K : Type} (E : environment K).

(** The argument of the [fatal_error] that follows a failed [perfmonctl],
    by command, as the branches of [main] have it; [e] is [errno]. *)
Definition failure_message (cmd : perfmon_cmd) (e : Z) : string :=
  match cmd with
  | PFM_CREATE_CONTEXT =>
      if e =? ENOSYS hdr
      then "Your kernel does not have performance monitoring support!" ++ nl
      else "Can't create PFM context " ++ strerror E e ++ nl
  | PFM_ENABLE =>
      "child: perfmonctl error PFM_ENABLE errno " ++ fmt_d e ++ nl
  | PFM_WRITE_PMCS =>
      "child: perfmonctl error PFM_WRITE_PMCS errno " ++ fmt_d e ++ nl
  | PFM_WRITE_PMDS =>
      "child: perfmonctl error PFM_WRITE_PMDS errno " ++ fmt_d e ++ nl
  | PFM_START =>
      "child: perfmonctl error PFM_WRITE_PMCS errno " ++ fmt_d e ++ nl
  | PFM_STOP =>
      "child: perfmonctl error PFM_WRITE_PMCS errno " ++ fmt_d e ++ nl
  | PFM_READ_PMDS =>
      "perfmonctl error READ_PMDS errno " ++ fmt_d e ++ nl
  | PFM_DESTROY_CONTEXT =>
      "child: perfmonctl error PFM_DESTROY errno " ++ fmt_d e ++ nl
  end.

End Reports.

(** An environment whose kernel refuses [PFM_START] with [errno] 16 and
    accepts every other command. *)
Definition refusing_start (k : demo_kernel) (pid : Z) (cmd : perfmon_cmd)
  (arg : perfmon_arg) (n : Z) : Z * demo_kernel :=
  match cmd with
  | PFM_START =>
      (-1, {| dk_running := dk_running k; dk_pmds := dk_pmds k;
              dk_errno := 16 |})
  | _ => demo_perfmonctl k pid cmd arg n
  end.

Definition demo_env_refusing_start (pm : pmu) : environment demo_kernel :=
  {| getpid := 4242;
     pfm_initialize := 0;
     pfm_get_num_counters := Z.of_nat (capacity pm);
     pfm_find_event := spec_find_event itanium_headers itanium_catalog;
     pfm_dispatch_events := spec_dispatch_events itanium_headers pm;
     pfm_strerror := fun r => "error " ++ fmt_d r;
     pfm_get_event_name := event_name itanium_catalog;
     perfmonctl := refusing_start;
     errno := dk_errno;
     strerror := fun e => "errno " ++ fmt_d e;
     read_pmd := fun k r => dk_lookup r (dk_pmds k);
     getchar := demo_getchar |}.

From Stdlib Require Import DecimalPos DecimalN.

(** ** Replaying the calls against the kernel *)

Section Replay.

Context (hdr : perfmon_headers) {K : Type} (E : environment K).

(** The state the kernel is in once it has served the calls of [tr],
    started in [k]: [perfmonctl] and [getchar] move it, nothing else
    does. *)
Fixpoint kernel_after (k : K) (tr : list io) : K :=
  match tr with
  | [] => k
  | Sys_perfmonctl pid cmd arg n :: tr' =>
      kernel_after (snd (perfmonctl E k pid cmd arg n)) tr'
  | Sys_getchar :: tr' => kernel_after (getchar E k) tr'
  | _ :: tr' => kernel_after k tr'
  end.

(** Whether the kernel, started in [k], answers every [perfmonctl] of
    [tr] with something other than -1. *)
Fixpoint calls_succeed (k : K) (tr : list io) : bool :=
  match tr with
  | [] => true
  | Sys_perfmonctl pid cmd arg n :: tr' =>
      negb (fst (perfmonctl E k pid cmd arg n) =? -1)
      && calls_succeed (snd (perfmonctl E k pid cmd arg n)) tr'
  | Sys_getchar :: tr' => calls_succeed (getchar E k) tr'
  | _ :: tr' => calls_succeed k tr'
  end.

(** The steps of a complete session for the request of [argv]. *)
Definition session_steps (argv : list string) : list io :=
  session_head hdr E (evt_of hdr E (requested argv))
    (snd (fst (dispatched hdr E argv))) (snd (dispatched hdr E argv))
  ++ [Sys_perfmonctl (getpid E) PFM_DESTROY_CONTEXT Arg_null 0].

(** The kernel state in which [PFM_READ_PMDS] returns, in a run started
    in [k] that gets that far. *)
Definition kernel_at_read (argv : list string) (k : K) : K :=
  kernel_after k
    (session_head hdr E (evt_of hdr E (requested argv))
       (snd (fst (dispatched hdr E argv))) (snd (dispatched hdr E argv))).

(** No call that [main] checks fails: the library initialises, the
    command line passes the check, every requested name resolves, the
    events are dispatched, and the kernel, started in [k], accepts each
    of the eight commands in turn. *)
Definition every_call_succeeds (argv : list string) (k : K) : Prop :=
  pfm_initialize E = PFMLIB_SUCCESS hdr
  /\ Z.of_nat (List.length argv) - 1 <= pfm_get_num_counters E
  /\ forallb (resolves hdr E) (requested argv) = true
  /\ fst (fst (dispatched hdr E argv)) = PFMLIB_SUCCESS hdr
  /\ calls_succeed k (session_steps argv) = true.

End Replay.

(** The number that a string of decimal digits writes. *)
Definition decimal_value (s : string) : option Z :=
  option_map (fun d => Z.of_N (N.of_uint d)) (NilZero.uint_of_string s).

(** An environment whose kernel refuses [PFM_READ_PMDS] with [errno] 22
    and accepts every other command. *)
Definition refusing_read (k : demo_kernel) (pid : Z) (cmd : perfmon_cmd)
  (arg : perfmon_arg) (n : Z) : Z * demo_kernel :=
  match cmd with
  | PFM_READ_PMDS =>
      (-1, {| dk_running := dk_running k; dk_pmds := dk_pmds k;
              dk_errno := 22 |})
  | _ => demo_perfmonctl k pid cmd arg n
  end.

Definition demo_env_refusing_read (pm : pmu) : environment demo_kernel :=
  {| getpid := 4242;
     pfm_initialize := 0;
     pfm_get_num_counters := Z.of_nat (capacity pm);
     pfm_find_event := spec_find_event itanium_headers itanium_catalog;
     pfm_dispatch_events := spec_dispatch_events itanium_headers pm;
     pfm_strerror := fun r => "error " ++ fmt_d r;
     pfm_get_event_name := event_name itanium_catalog;
     perfmonctl := refusing_read;
     errno := dk_errno;
     strerror := fun e => "errno " ++ fmt_d e;
     read_pmd := fun k r => dk_lookup r (dk_pmds k);
     getchar := demo_getchar |}.

(** An environment whose library does not initialise. *)
Definition demo_env_no_library (pm : pmu) : environment demo_kernel :=
  {| getpid := 4242;
     pfm_initialize := -1;
     pfm_get_num_counters := Z.of_nat (capacity pm);
     pfm_find_event := spec_find_event itanium_headers itanium_catalog;
     pfm_dispatch_events := spec_dispatch_events itanium_headers pm;
     pfm_strerror := fun r => "error " ++ fmt_d r;
     pfm_get_event_name := event_name itanium_catalog;
     perfmonctl := demo_perfmonctl;
     errno := dk_errno;
     strerror := fun e => "errno " ++ fmt_d e;
     read_pmd := fun k r => dk_lookup r (dk_pmds k);
     getchar := demo_getchar |}.


(** * Properties *)

Section Runs.

Context (hdr : perfmon_headers) {K : Type} (E : environment K).

Ltac exec :=
  cbv beta iota zeta delta
    [bind sys_perfmonctl get_errno fatal_error printf emit exit ret
     sys_getchar w_kernel w_trace log].

Lemma log_nil (w : world K) : log [] w = w.
Proof. destruct w; unfold log; simpl. now rewrite app_nil_r. Qed.

Lemma log_log (a b : list io) (w : world K) :
  log b (log a w) = log (a ++ b) w.
Proof. unfold log; simpl. now rewrite app_assoc. Qed.

Lemma emit_log (e : io) (w : world K) : emit e w = (Done tt, log [e] w).
Proof. reflexivity. Qed.

(** *** The event loop *)

Lemma find_events_ok (p : list string) :
  forall i evts (w : world K),
    forallb (resolves hdr E) p = true ->
    find_events hdr E p i evts w
    = (Done ((i + List.length p)%nat, store_events E p i evts),
       log (find_calls p i) w).
Proof.
  induction p as [|name p IH]; intros i evts w Hok.
  - simpl. unfold ret. now rewrite log_nil, Nat.add_0_r.
  - simpl in Hok. apply andb_true_iff in Hok as [Hname Hp].
    unfold resolves in Hname.
    simpl. unfold bind at 1. rewrite emit_log.
    destruct (pfm_find_event E name 0) as [r ev]; simpl in *.
    rewrite Hname. unfold bind, ret.
    rewrite IH by assumption. rewrite log_log.
    now rewrite Nat.add_succ_r.
Qed.

Lemma find_events_unknown (good : list string) :
  forall bad rest i evts (w : world K),
    forallb (resolves hdr E) good = true ->
    resolves hdr E bad = false ->
    (find_events hdr E (good ++ bad :: rest) i evts w
    = (Exit 1,
       log (find_calls (good ++ [bad]) i
            ++ [Stderr ("Cannot find " ++ bad ++ " event" ++ nl)]) w))%list.
Proof.
  induction good as [|name good IH]; intros bad rest i evts w Hok Hbad.
  - unfold resolves in Hbad.
    simpl app. simpl find_events. unfold bind at 1. rewrite emit_log.
    destruct (pfm_find_event E bad 0) as [r ev]; simpl in Hbad.
    rewrite Hbad. unfold bind at 1. unfold fatal_error, bind at 1.
    rewrite emit_log. unfold exit. now rewrite log_log.
  - simpl in Hok. apply andb_true_iff in Hok as [Hname Hp].
    unfold resolves in Hname.
    simpl app. simpl find_events. unfold bind at 1. rewrite emit_log.
    destruct (pfm_find_event E name 0) as [r ev]; simpl in Hname.
    rewrite Hname. unfold bind at 1. unfold ret.
    rewrite (IH bad rest) by assumption. now rewrite log_log.
Qed.

Lemma resolves_split (p : list string) :
  forallb (resolves hdr E) p = true
  \/ exists good bad rest,
       p = (good ++ bad :: rest)%list
       /\ forallb (resolves hdr E) good = true
       /\ resolves hdr E bad = false.
Proof.
  induction p as [|name p IH].
  - now left.
  - destruct (resolves hdr E name) eqn:Hname.
    + destruct IH as [Hp | (good & bad & rest & -> & Hgood & Hbad)].
      * left. simpl. now rewrite Hname.
      * right. exists (name :: good), bad, rest. simpl. now rewrite Hname.
    + right. now exists [], name, p.
Qed.

(** *** The printing loop *)

Lemma print_results_run (n : nat) :
  forall i evts pd (w : world K),
    print_results E n i evts pd w = (Done tt, log (rows_io E n i evts pd) w).
Proof.
  induction n as [|n IH]; intros i evts pd w.
  - simpl. unfold ret. now rewrite log_nil.
  - simpl. unfold bind, printf. rewrite !emit_log, IH, !log_log.
    reflexivity.
Qed.

(** *** The session *)

Ltac next_call r k' :=
  match goal with
  | |- context [perfmonctl E ?k ?p ?c ?a ?n] =>
      lazymatch k with
      | context [perfmonctl] => fail
      | _ => destruct (perfmonctl E k p c a n) as [r k']
      end
  end; exec.

Ltac stops_at j :=
  do 3 eexists;
  (split; [rewrite <- ?app_assoc; reflexivity|]);
  apply (Session_failed hdr E _ _ _ j); simpl; tauto.

Lemma session_run evt pc cnt (w : world K) :
  exists o k tr,
    session hdr E evt pc cnt w
    = (o, {| w_kernel := k; w_trace := w_trace w ++ tr |})
    /\ session_shape hdr E evt pc cnt o tr.
Proof.
  unfold session. exec.
  next_call r1 k1.
  destruct (r1 =? -1).
  { destruct (errno E k1 =? ENOSYS hdr); exec; stops_at 1%nat. }
  next_call r2 k2.
  destruct (r2 =? -1); [stops_at 2%nat|].
  next_call r3 k3.
  destruct (r3 =? -1); [stops_at 3%nat|].
  next_call r4 k4.
  destruct (r4 =? -1); [stops_at 4%nat|].
  next_call r5 k5.
  destruct (r5 =? -1); [stops_at 5%nat|].
  next_call r6 k6.
  destruct (r6 =? -1); [stops_at 8%nat|].
  next_call r7 k7.
  destruct (r7 =? -1); [stops_at 10%nat|].
  rewrite print_results_run. exec.
  next_call r8 k8.
  destruct (r8 =? -1).
  - do 3 eexists. split; [rewrite <- ?app_assoc; reflexivity|].
    apply (Session_destroy_failed hdr E _ _ _ k7).
  - do 3 eexists. split; [rewrite <- ?app_assoc; reflexivity|].
    apply (Session_success hdr E _ _ _ k7).
Qed.

(** *** The whole program *)

Lemma requested_eq (argv : list string) :
  (if Z.of_nat (List.length argv) >? 1 then tl argv else event_list)
  = requested argv.
Proof. reflexivity. Qed.

Lemma main_run_shape (argv : list string) (k : K) :
  run_shape hdr E argv (fst (run hdr E argv k))
    (w_trace (snd (run hdr E argv k))).
Proof.
  unfold run, main. rewrite requested_eq. exec.
  destruct (pfm_initialize E =? PFMLIB_SUCCESS hdr) eqn:Hinit.
  2:{ apply Z.eqb_neq in Hinit. now apply Shape_no_library. }
  apply Z.eqb_eq in Hinit.
  destruct (Z.of_nat (List.length argv) - 1 >? pfm_get_num_counters E) eqn:Hmany.
  { apply Shape_too_many; [assumption|]. now apply Z.gtb_gt. }
  assert (Hfew : Z.of_nat (List.length argv) - 1 <= pfm_get_num_counters E).
  { rewrite Z.gtb_ltb in Hmany. apply Z.ltb_ge in Hmany. exact Hmany. }
  clear Hmany. unfold monitor. exec.
  destruct (resolves_split (requested argv))
    as [Hok | (good & bad & rest & Hp & Hgood & Hbad)].
  - rewrite find_events_ok by assumption. exec.
    cbv beta iota delta [fst snd].
    change (0 + List.length (requested argv))%nat
      with (List.length (requested argv)).
    fold (evt_of hdr E (requested argv)).
    destruct (pfm_dispatch_events E (evt_of hdr E (requested argv))
                (repeat zero_reg (NUM_PMCS hdr)) (Z.of_nat (NUM_PMCS hdr)))
      as [[r pc] cnt] eqn:Hdisp.
    destruct (r =? PFMLIB_SUCCESS hdr) eqn:Hr.
    + apply Z.eqb_eq in Hr. subst r.
      assert (Hreach : reaches_session hdr E argv pc cnt) by (repeat split; assumption).
      match goal with
      | |- context [session hdr E ?evt ?pc ?cnt ?w] =>
          destruct (session_run evt pc cnt w) as (o & k' & tr & Hrun & Hshape);
          rewrite Hrun
      end.
      cbv beta iota delta [fst snd w_trace].
      destruct Hshape.
      * replace (_ ++ _)%list with
          (dispatch_prelude hdr E (requested argv)
           ++ firstn j (session_head hdr E (evt_of hdr E (requested argv)) pc cnt)
           ++ [Stderr msg])%list.
        { now apply Shape_session_failed. }
        unfold dispatch_prelude, lib_prelude. now rewrite <- !app_assoc.
      * replace (_ ++ _)%list with
          (dispatch_prelude hdr E (requested argv)
           ++ session_head hdr E (evt_of hdr E (requested argv)) pc cnt
           ++ result_rows hdr E (evt_of hdr E (requested argv)) pc kr
           ++ [Sys_perfmonctl (getpid E) PFM_DESTROY_CONTEXT Arg_null 0;
               Stderr msg])%list.
        { now apply Shape_destroy_failed with (cnt := cnt). }
        unfold dispatch_prelude, lib_prelude. now rewrite <- !app_assoc.
      * replace (_ ++ _)%list with
          (dispatch_prelude hdr E (requested argv)
           ++ session_head hdr E (evt_of hdr E (requested argv)) pc cnt
           ++ result_rows hdr E (evt_of hdr E (requested argv)) pc kr
           ++ [Sys_perfmonctl (getpid E) PFM_DESTROY_CONTEXT Arg_null 0])%list.
        { now apply Shape_success with (cnt := cnt). }
        unfold dispatch_prelude, lib_prelude. now rewrite <- !app_assoc.
    + apply Z.eqb_neq in Hr. cbv beta iota delta [fst snd w_trace].
      replace (_ ++ _)%list with
        (dispatch_prelude hdr E (requested argv)
         ++ [Stderr ("cannot configure events: " ++ pfm_strerror E r ++ nl)])%list.
      { now apply Shape_not_dispatched with (pc := pc) (cnt := cnt). }
      unfold dispatch_prelude, lib_prelude. now rewrite <- !app_assoc.
  - rewrite Hp, find_events_unknown by assumption.
    cbv beta iota delta [fst snd w_trace log w_kernel].
    replace (_ ++ _)%list with
      (lib_prelude ++ find_calls (good ++ [bad]) 0
       ++ [Stderr ("Cannot find " ++ bad ++ " event" ++ nl)])%list.
    { now apply Shape_unknown_event with (rest := rest). }
    unfold lib_prelude. now rewrite <- !app_assoc.
Qed.

(** *** Reading the trace of a run *)

Lemma session_calls_app (a b : list io) :
  session_calls (a ++ b) = (session_calls a ++ session_calls b)%list.
Proof. apply flat_map_app. Qed.

Lemma session_calls_find_calls (p : list string) :
  forall i, session_calls (find_calls p i) = [].
Proof. induction p as [|name p IH]; intro i; simpl; auto. Qed.

Lemma session_calls_rows (n : nat) :
  forall i evts pd, session_calls (rows_io E n i evts pd) = [].
Proof. induction n as [|n IH]; intros; simpl; auto. Qed.

Lemma session_calls_prelude (p : list string) :
  session_calls (dispatch_prelude hdr E p) = [].
Proof.
  unfold dispatch_prelude. rewrite !session_calls_app.
  now rewrite session_calls_find_calls.
Qed.

Lemma In_session_calls pid cmd arg n (tr : list io) :
  In (Sys_perfmonctl pid cmd arg n) tr -> In (cmd, arg, n) (session_calls tr).
Proof.
  intro H. unfold session_calls. apply in_flat_map.
  exists (Sys_perfmonctl pid cmd arg n). simpl. auto.
Qed.

Lemma session_cmds_calls (tr : list io) :
  session_cmds tr = map (fun c => fst (fst c)) (session_calls tr).
Proof.
  induction tr as [|e tr IH]; [reflexivity|].
  destruct e; simpl; try exact IH. now rewrite IH.
Qed.

Lemma session_calls_head evt pc cnt :
  session_calls (session_head hdr E evt pc cnt)
  = [ (PFM_CREATE_CONTEXT, Arg_ctx (ctx0 hdr), 1);
      (PFM_ENABLE, Arg_null, 0);
      (PFM_WRITE_PMCS, Arg_regs pc, cnt);
      (PFM_WRITE_PMDS, Arg_regs (pd_of hdr evt pc), pfp_count evt);
      (PFM_START, Arg_null, 0);
      (PFM_STOP, Arg_null, 0);
      (PFM_READ_PMDS, Arg_regs (pd_of hdr evt pc), pfp_count evt) ].
Proof. reflexivity. Qed.

Lemma planned_calls_reached argv pc cnt :
  reaches_session hdr E argv pc cnt ->
  planned_calls hdr E argv
  = (session_calls (session_head hdr E (evt_of hdr E (requested argv)) pc cnt)
     ++ [(PFM_DESTROY_CONTEXT, Arg_null, 0)])%list.
Proof.
  intros (_ & _ & _ & Hd). unfold planned_calls, dispatched. now rewrite Hd.
Qed.

(** The calls of [perfmonctl] of any run are the first [j] of the planned
    ones; a run that makes one has reached the session, and a run that
    returns makes them all. *)
Lemma run_calls (argv : list string) (k : K) :
  exists j,
    session_calls (w_trace (snd (run hdr E argv k)))
    = firstn j (planned_calls hdr E argv)
    /\ (j <= 8)%nat
    /\ ((0 < j)%nat ->
        exists pc cnt, reaches_session hdr E argv pc cnt)
    /\ (fst (run hdr E argv k) = Done 0 -> j = 8%nat).
Proof.
  destruct (main_run_shape argv k)
    as [Hi | Hi Hm | good bad rest Hi Hm Hp Hg Hb | r pc cnt Hi Hm Hok Hd Hr
        | pc cnt j msg Hreach Hj | pc cnt kr msg Hreach | pc cnt kr Hreach].
  - exists 0%nat. repeat split; try lia; try discriminate. 
  - exists 0%nat. repeat split; try lia; try discriminate.
  - exists 0%nat. rewrite !session_calls_app, session_calls_find_calls.
    repeat split; try lia; try discriminate.
  - exists 0%nat. rewrite session_calls_app, session_calls_prelude.
    repeat split; try lia; try discriminate.
  - rewrite !session_calls_app, session_calls_prelude,
      (planned_calls_reached _ _ _ Hreach), session_calls_head.
    simpl in Hj.
    destruct Hj as [<-|[<-|[<-|[<-|[<-|[<-|[<-|[]]]]]]]].
    + exists 1%nat. repeat split; try lia; try discriminate; eauto.
    + exists 2%nat. repeat split; try lia; try discriminate; eauto.
    + exists 3%nat. repeat split; try lia; try discriminate; eauto.
    + exists 4%nat. repeat split; try lia; try discriminate; eauto.
    + exists 5%nat. repeat split; try lia; try discriminate; eauto.
    + exists 6%nat. repeat split; try lia; try discriminate; eauto.
    + exists 7%nat. repeat split; try lia; try discriminate; eauto.
  - exists 8%nat.
    rewrite !session_calls_app, session_calls_prelude,
      (planned_calls_reached _ _ _ Hreach), session_calls_head.
    unfold result_rows. rewrite session_calls_rows.
    repeat split; try lia; try discriminate; eauto.
  - exists 8%nat.
    rewrite !session_calls_app, session_calls_prelude,
      (planned_calls_reached _ _ _ Hreach), session_calls_head.
    unfold result_rows. rewrite session_calls_rows.
    repeat split; try lia; try discriminate; eauto.
Qed.

Lemma In_firstn_In {A : Type} (x : A) (n : nat) (l : list A) :
  In x (firstn n l) -> In x l.
Proof.
  intro H. rewrite <- (firstn_skipn n l). apply in_or_app. now left.
Qed.

(** *** The CPU mask *)

Lemma shiftl_one_bit (c : Z) :
  0 <= c < 64 -> one_bit_set (Z.shiftl 1 c mod 2 ^ 64).
Proof.
  intro Hc. exists c. split; [lia|]. intro i.
  rewrite Z.shiftl_1_l.
  rewrite Z.mod_small.
  - rewrite Z.pow2_bits_eqb by lia. apply Z.eqb_sym.
  - split; [apply Z.pow_nonneg; lia|]. apply Z.pow_lt_mono_r; lia.
Qed.

(** C7: in every run, a [PFM_CREATE_CONTEXT] call carries the context
    [ctx0], whose CPU mask [1UL << WHICH_CPU] has exactly one bit set. *)
Theorem create_context_binds_one_cpu (argv : list string) (k : K)
  (pid : Z) (arg : perfmon_arg) (n : Z) :
  In (Sys_perfmonctl pid PFM_CREATE_CONTEXT arg n)
     (w_trace (snd (run hdr E argv k))) ->
  exists ctx, arg = Arg_ctx ctx /\ one_bit_set (ctx_cpu_mask ctx).
Proof.
  intro Hin. apply In_session_calls in Hin.
  destruct (run_calls argv k) as (j & Hcalls & _).
  rewrite Hcalls in Hin. apply In_firstn_In in Hin.
  exists (ctx0 hdr). split.
  - unfold planned_calls in Hin. simpl in Hin.
    repeat (destruct Hin as [Hin|Hin]; [inversion Hin; try reflexivity|]).
    contradiction.
  - unfold ctx0, ctx_cpu_mask. apply shiftl_one_bit. unfold WHICH_CPU. lia.
Qed.

(** C2: a run that returns 0 has sent to [perfmonctl], in this order and
    once each, create-context, enable, write-PMCs, write-PMDs, start,
    stop, read-PMDs and destroy-context, and nothing after the last. *)
Theorem session_operations_in_order (argv : list string) (k : K) :
  fst (run hdr E argv k) = Done 0 ->
  session_cmds (w_trace (snd (run hdr E argv k)))
  = [ PFM_CREATE_CONTEXT; PFM_ENABLE; PFM_WRITE_PMCS; PFM_WRITE_PMDS;
      PFM_START; PFM_STOP; PFM_READ_PMDS; PFM_DESTROY_CONTEXT ].
Proof.
  intro Hdone.
  destruct (run_calls argv k) as (j & Hcalls & _ & _ & Hall).
  rewrite session_cmds_calls, Hcalls, (Hall Hdone).
  reflexivity.
Qed.

(** C3: once the library is initialised, a command line with more events
    than [pfm_get_num_counters()] makes the program print "Too many events
    specified" and exit with status 1, having resolved no event, dispatched
    nothing and called [perfmonctl] not once. *)
Theorem too_many_events_before_session (argv : list string) (k : K) :
  pfm_initialize E = PFMLIB_SUCCESS hdr ->
  Z.of_nat (List.length argv) - 1 > pfm_get_num_counters E ->
  run hdr E argv k
  = (Exit 1,
     {| w_kernel := k;
        w_trace := [Lib_initialize; Lib_get_num_counters;
                    Stdout ("Too many events specified" ++ nl)] |}).
Proof.
  intros Hinit Hmany. unfold run, main. exec.
  apply Z.eqb_eq in Hinit. rewrite Hinit.
  apply Z.gtb_gt in Hmany. rewrite Hmany.
  reflexivity.
Qed.


(** *** Arrays *)

Lemma length_set_nth {A : Type} (x : A) (l : list A) :
  forall i, List.length (set_nth i x l) = List.length l.
Proof.
  induction l as [|h t IH]; intros [|i]; simpl; auto.
Qed.

Lemma nth_set_nth_eq {A : Type} (x d : A) (l : list A) :
  forall i, (i < List.length l)%nat -> nth i (set_nth i x l) d = x.
Proof.
  induction l as [|h t IH]; intros [|i] Hi; simpl in *; try lia; auto.
  apply IH. lia.
Qed.

Lemma nth_set_nth_neq {A : Type} (x d : A) (l : list A) :
  forall i j, i <> j -> nth j (set_nth i x l) d = nth j l d.
Proof.
  induction l as [|h t IH]; intros [|i] [|j] Hij; simpl; auto; try lia.
Qed.

Lemma Forall_set_nth {A : Type} (P : A -> Prop) (x : A) (l : list A) :
  P x -> Forall P l -> forall i, Forall P (set_nth i x l).
Proof.
  intros Hx Hl. induction Hl as [|h t Hh Ht IH]; intros [|i]; simpl;
    constructor; auto.
Qed.

Lemma nth_store_events_below (p : list string) :
  forall i evts j,
    (j < i)%nat -> nth j (store_events E p i evts) 0 = nth j evts 0.
Proof.
  induction p as [|name p IH]; intros i evts j Hj; simpl; [reflexivity|].
  rewrite IH by lia. apply nth_set_nth_neq. lia.
Qed.

Lemma length_store_events (p : list string) :
  forall i evts, List.length (store_events E p i evts) = List.length evts.
Proof.
  induction p as [|name p IH]; intros i evts; simpl; [reflexivity|].
  now rewrite IH, length_set_nth.
Qed.

(** After the loop, entry [i + j] of [evt.pfp_evt] is the descriptor that
    [pfm_find_event] gave for the [j]-th name. *)
Lemma nth_store_events (p : list string) :
  forall i evts j,
    (i + List.length p <= List.length evts)%nat ->
    (j < List.length p)%nat ->
    nth (i + j) (store_events E p i evts) 0
    = snd (pfm_find_event E (nth j p "") 0).
Proof.
  induction p as [|name p IH]; intros i evts j Hlen Hj; simpl in *; [lia|].
  destruct j as [|j].
  - rewrite Nat.add_0_r, nth_store_events_below by lia.
    apply nth_set_nth_eq. lia.
  - rewrite Nat.add_succ_r.
    apply (IH (S i)); [rewrite length_set_nth|]; lia.
Qed.

Lemma nth_copy_reg_nums_below (n : nat) :
  forall i pc pd j,
    (j < i)%nat ->
    nth j (copy_reg_nums n i pc pd) zero_reg = nth j pd zero_reg.
Proof.
  induction n as [|n IH]; intros i pc pd j Hj; simpl; [reflexivity|].
  rewrite IH by lia. apply nth_set_nth_neq. lia.
Qed.

Lemma length_copy_reg_nums (n : nat) :
  forall i pc pd,
    List.length (copy_reg_nums n i pc pd) = List.length pd.
Proof.
  induction n as [|n IH]; intros i pc pd; simpl; [reflexivity|].
  now rewrite IH, length_set_nth.
Qed.

(** After the copying loop, [pd[i+j]] has the register number of
    [pc[i+j]] and is otherwise as it was. *)
Lemma nth_copy_reg_nums (n : nat) :
  forall i pc pd j,
    (i + n <= List.length pd)%nat ->
    (j < n)%nat ->
    nth (i + j) (copy_reg_nums n i pc pd) zero_reg
    = set_reg_num (nth (i + j) pd zero_reg)
        (reg_num (nth (i + j) pc zero_reg)).
Proof.
  induction n as [|n IH]; intros i pc pd j Hlen Hj; simpl; [lia|].
  destruct j as [|j].
  - rewrite Nat.add_0_r, nth_copy_reg_nums_below by lia.
    apply nth_set_nth_eq. lia.
  - rewrite Nat.add_succ_r. change (S (i + j)) with (S i + j)%nat.
    rewrite (IH (S i)); [|rewrite length_set_nth; lia|lia].
    f_equal. apply nth_set_nth_neq. lia.
Qed.

Lemma copy_reg_nums_values (n : nat) :
  forall i pc pd,
    Forall (fun r => reg_value r = 0) pd ->
    Forall (fun r => reg_value r = 0) (copy_reg_nums n i pc pd).
Proof.
  induction n as [|n IH]; intros i pc pd Hpd; simpl; [assumption|].
  apply IH. apply Forall_set_nth; [|assumption].
  simpl. destruct (nth_in_or_default i pd zero_reg) as [Hin | ->];
    [|reflexivity].
  rewrite Forall_forall in Hpd. now apply Hpd.
Qed.

(** Every entry of the [pd] written by [PFM_WRITE_PMDS] has value 0. *)
Lemma pd_of_zeroed evt pc :
  Forall (fun r => reg_value r = 0) (pd_of hdr evt pc).
Proof.
  unfold pd_of. apply copy_reg_nums_values.
  apply Forall_forall. intros r Hr. apply repeat_spec in Hr. now subst.
Qed.

Lemma nth_pd_of evt pc (j : nat) :
  (Z.to_nat (pfp_count evt) <= NUM_PMDS hdr)%nat ->
  (j < Z.to_nat (pfp_count evt))%nat ->
  nth j (pd_of hdr evt pc) zero_reg
  = {| reg_num := reg_num (nth j pc zero_reg); reg_value := 0 |}.
Proof.
  intros Hn Hj. unfold pd_of.
  rewrite (nth_copy_reg_nums _ 0 pc _ j); [|rewrite repeat_length; lia|lia].
  simpl. now rewrite nth_repeat.
Qed.

Lemma nth_firstn_lt {A : Type} (d : A) (l : list A) :
  forall n j, (j < n)%nat -> nth j (firstn n l) d = nth j l d.
Proof.
  induction l as [|h t IH]; intros [|n] [|j] Hj; simpl; auto; try lia.
  apply IH. lia.
Qed.

Lemma nth_store_pmds (kr : K) (n : nat) (pd : list pfarg_reg_t) (j : nat) :
  (n <= List.length pd)%nat ->
  (j < n)%nat ->
  nth j (store_pmds E kr n pd) zero_reg
  = set_reg_value (nth j pd zero_reg)
      (read_pmd E kr (reg_num (nth j pd zero_reg)) mod 2 ^ 64).
Proof.
  intros Hn Hj. unfold store_pmds.
  rewrite app_nth1 by (rewrite length_map, length_firstn; lia).
  set (f := fun r => set_reg_value r (read_pmd E kr (reg_num r) mod 2 ^ 64)).
  rewrite (nth_indep _ zero_reg (f zero_reg))
    by (rewrite length_map, length_firstn; lia).
  rewrite map_nth. unfold f.
  now rewrite nth_firstn_lt by assumption.
Qed.

(** *** The result lines *)

Lemma stdout_of_app (a b : list io) :
  stdout_of (a ++ b) = (stdout_of a ++ stdout_of b)%list.
Proof. apply flat_map_app. Qed.

Lemma stdout_of_find_calls (p : list string) :
  forall i, stdout_of (find_calls p i) = [].
Proof. induction p as [|name p IH]; intro i; simpl; auto. Qed.

Lemma stdout_of_rows (n : nat) :
  forall i evts pd,
    stdout_of (rows_io E n i evts pd)
    = map (fun j => result_row (nth j pd zero_reg)
                      (pfm_get_event_name E (nth j evts 0)))
          (seq i n).
Proof.
  induction n as [|n IH]; intros i evts pd; simpl; [reflexivity|].
  now rewrite IH.
Qed.

(** C5: in every run that issues [PFM_WRITE_PMDS], the calls of
    [perfmonctl] begin with create-context, enable, then [PFM_WRITE_PMCS]
    on the [cnt] entries of [pc] that [pfm_dispatch_events] produced, then
    [PFM_WRITE_PMDS] on [pd], every entry of which has value 0; and a
    later [PFM_READ_PMDS] is given the same [pd] and the same count. *)
Theorem arm_writes_controls_then_zeroed_counters (argv : list string)
  (k : K) (arg : perfmon_arg) (n : Z) :
  In (PFM_WRITE_PMDS, arg, n)
     (session_calls (w_trace (snd (run hdr E argv k)))) ->
  exists pc cnt rest,
    reaches_session hdr E argv pc cnt
    /\ session_calls (w_trace (snd (run hdr E argv k)))
       = (PFM_CREATE_CONTEXT, Arg_ctx (ctx0 hdr), 1)
         :: (PFM_ENABLE, Arg_null, 0)
         :: (PFM_WRITE_PMCS, Arg_regs pc, cnt)
         :: (PFM_WRITE_PMDS,
             Arg_regs (pd_of hdr (evt_of hdr E (requested argv)) pc),
             pfp_count (evt_of hdr E (requested argv)))
         :: rest
    /\ arg = Arg_regs (pd_of hdr (evt_of hdr E (requested argv)) pc)
    /\ n = pfp_count (evt_of hdr E (requested argv))
    /\ Forall (fun r => reg_value r = 0)
         (pd_of hdr (evt_of hdr E (requested argv)) pc)
    /\ (forall arg' n',
          In (PFM_READ_PMDS, arg', n') rest ->
          arg' = Arg_regs (pd_of hdr (evt_of hdr E (requested argv)) pc)
          /\ n' = pfp_count (evt_of hdr E (requested argv))).
Proof.
  intro Hin.
  destruct (run_calls argv k) as (j & Hcalls & Hj & Hreach & _).
  rewrite Hcalls in *.
  assert (H4 : (4 <= j)%nat).
  { destruct j as [|[|[|[|j]]]]; try lia; exfalso;
      unfold planned_calls in Hin; simpl in Hin;
      repeat (destruct Hin as [Hin|Hin]; [discriminate Hin|]);
      exact Hin. }
  destruct Hreach as (pc & cnt & Hreach); [lia|].
  rewrite (planned_calls_reached _ _ _ Hreach), session_calls_head in *.
  exists pc, cnt.
  destruct j as [|[|[|[|j]]]]; try lia.
  cbn [firstn app] in *.
  eexists. split; [assumption|]. split; [reflexivity|].
  assert (Hrest : forall c a m,
    In (c, a, m)
       (firstn j
          [(PFM_START, Arg_null, 0); (PFM_STOP, Arg_null, 0);
           (PFM_READ_PMDS,
            Arg_regs (pd_of hdr (evt_of hdr E (requested argv)) pc),
            pfp_count (evt_of hdr E (requested argv)));
           (PFM_DESTROY_CONTEXT, Arg_null, 0)]) ->
    c = PFM_WRITE_PMDS \/ c = PFM_READ_PMDS ->
    c = PFM_READ_PMDS
    /\ a = Arg_regs (pd_of hdr (evt_of hdr E (requested argv)) pc)
    /\ m = pfp_count (evt_of hdr E (requested argv))).
  { intros c a m Hc Hcmd. apply In_firstn_In in Hc. simpl in Hc.
    destruct Hcmd as [-> | ->];
      repeat (destruct Hc as [Hc|Hc];
              [inversion Hc; subst; auto; try discriminate|]);
      contradiction. }
  repeat (destruct Hin as [Hin|Hin]; [inversion Hin; subst|]).
  - repeat split; auto using pd_of_zeroed;
      intros; edestruct Hrest as (_ & ? & ?); eauto.
  - destruct (Hrest _ _ _ Hin (or_introl eq_refl)) as (Hc & _).
    discriminate Hc.
Qed.

(** *** Unknown events *)

Lemma resolve_unknown (cat : catalog) (name : string) :
  (forall d, ~ In (name, d) cat) -> resolve cat name = inl UnknownEvent.
Proof.
  induction cat as [|[n d] cat IH]; intro Hno; simpl; [reflexivity|].
  destruct (String.eqb_spec name n) as [-> | Hne].
  - exfalso. apply (Hno d). now left.
  - apply IH. intros d' Hin. apply (Hno d'). now right.
Qed.

Lemma resolve_known (cat : catalog) (name : string) :
  (exists d, In (name, d) cat) -> exists d, resolve cat name = inr d.
Proof.
  induction cat as [|[n d] cat IH]; intros [d0 Hin]; simpl in *; [contradiction|].
  destruct (String.eqb_spec name n) as [-> | Hne]; [eauto|].
  apply IH. destruct Hin as [Heq | Hin]; [|eauto].
  inversion Heq. congruence.
Qed.

Lemma In_find_calls (e : io) (p : list string) :
  forall i, In e (find_calls p i) -> exists name j, e = Lib_find_event name j.
Proof.
  induction p as [|name p IH]; intros i Hin; simpl in Hin; [contradiction|].
  destruct Hin as [<- | Hin]; eauto.
Qed.

(** C4: when [pfm_find_event] is the catalog lookup [resolve], a requested
    name that matches no entry of the catalog is answered [UnknownEvent];
    the program then reports "Cannot find <name> event" and exits with
    status 1, and its trace holds neither a call of [pfm_dispatch_events]
    nor a call of [perfmonctl]. *)
Theorem unknown_event_stops_before_allocation (cat : catalog)
  (argv : list string) (k : K) (good : list string) (bad : string)
  (rest : list string) :
  (forall name u, pfm_find_event E name u = spec_find_event hdr cat name u) ->
  pfm_initialize E = PFMLIB_SUCCESS hdr ->
  Z.of_nat (List.length argv) - 1 <= pfm_get_num_counters E ->
  requested argv = (good ++ bad :: rest)%list ->
  (forall g, In g good -> exists d, In (g, d) cat) ->
  (forall d, ~ In (bad, d) cat) ->
  resolve cat bad = inl UnknownEvent
  /\ run hdr E argv k
     = (Exit 1,
        {| w_kernel := k;
           w_trace :=
             lib_prelude ++ find_calls (good ++ [bad]) 0
             ++ [Stderr ("Cannot find " ++ bad ++ " event" ++ nl)] |})
  /\ (forall evt cnt,
        ~ In (Lib_dispatch_events evt cnt) (w_trace (snd (run hdr E argv k))))
  /\ session_calls (w_trace (snd (run hdr E argv k))) = [].
Proof.
  intros Hfind Hinit Hfew Hreq Hgood Hbad.
  pose proof (resolve_unknown cat bad Hbad) as Hunknown.
  assert (Hg : forallb (resolves hdr E) good = true).
  { apply forallb_forall. intros g Hin.
    destruct (resolve_known cat g (Hgood g Hin)) as [d Hd].
    unfold resolves. rewrite Hfind. unfold spec_find_event. rewrite Hd.
    apply Z.eqb_refl. }
  assert (Hb : resolves hdr E bad = false).
  { unfold resolves. rewrite Hfind. unfold spec_find_event.
    rewrite Hunknown. simpl. apply Z.eqb_neq. lia. }
  assert (Hrun : run hdr E argv k
    = (Exit 1,
       {| w_kernel := k;
          w_trace :=
            lib_prelude ++ find_calls (good ++ [bad]) 0
            ++ [Stderr ("Cannot find " ++ bad ++ " event" ++ nl)] |})).
  { unfold run, main. rewrite requested_eq. exec.
    apply Z.eqb_eq in Hinit. rewrite Hinit.
    assert (Hcheck : (Z.of_nat (List.length argv) - 1 >? pfm_get_num_counters E)
                     = false).
    { rewrite Z.gtb_ltb. apply Z.ltb_ge. lia. }
    rewrite Hcheck. unfold monitor. exec.
    rewrite Hreq, find_events_unknown by assumption.
    unfold log, lib_prelude. cbv beta iota delta [w_kernel w_trace].
    now rewrite <- !app_assoc. }
  split; [exact Hunknown|]. split; [exact Hrun|].
  rewrite Hrun. cbv beta iota delta [snd w_trace]. split.
  - intros evt cnt Hin.
    apply in_app_or in Hin. destruct Hin as [Hin | Hin].
    { simpl in Hin. intuition discriminate. }
    apply in_app_or in Hin. destruct Hin as [Hin | Hin].
    { apply In_find_calls in Hin. destruct Hin as (name & j & Hin).
      discriminate Hin. }
    simpl in Hin. intuition discriminate.
  - rewrite !session_calls_app, session_calls_find_calls. reflexivity.
Qed.

(** In every run a [PFM_READ_PMDS] comes after [PFM_START] and
    [PFM_STOP]: the program never reads counters it has just written. *)
Lemma read_follows_start_and_stop (argv : list string) (k : K)
  (arg : perfmon_arg) (n : Z) :
  In (PFM_READ_PMDS, arg, n)
     (session_calls (w_trace (snd (run hdr E argv k)))) ->
  exists before after,
    session_calls (w_trace (snd (run hdr E argv k)))
    = (before ++ (PFM_START, Arg_null, 0) :: (PFM_STOP, Arg_null, 0)
              :: (PFM_READ_PMDS, arg, n) :: after)%list.
Proof.
  intro Hin.
  destruct (run_calls argv k) as (j & Hcalls & Hj & _).
  rewrite Hcalls in *. unfold planned_calls in *. cbv zeta in *.
  destruct j as [|[|[|[|[|[|[|[|[|j]]]]]]]]]; try lia;
    cbn [firstn] in *; simpl in Hin;
    repeat (destruct Hin as [Hin|Hin]; [try discriminate Hin|]);
    try contradiction;
    inversion Hin; subst;
    eexists [_; _; _; _], _; reflexivity.
Qed.

End Runs.

(** ** The allocator of the specification *)

Section Allocator.

Variable pm : pmu.
Variable pol : policy.

Lemma is_free_spec (used : list nat) (r : nat) :
  is_free used r = true <-> ~ In r used.
Proof.
  unfold is_free. rewrite negb_true_iff. split.
  - intros Hf Hin.
    assert (Ht : existsb (Nat.eqb r) used = true).
    { apply existsb_exists. exists r. split; [assumption|apply Nat.eqb_refl]. }
    congruence.
  - intro Hnot. destruct (existsb (Nat.eqb r) used) eqn:Hex; [|reflexivity].
    apply existsb_exists in Hex. destruct Hex as (x & Hx & Heq).
    apply Nat.eqb_eq in Heq. subst. contradiction.
Qed.

Lemma lowest_free_spec (used : list nat) (e : Z) (r : nat) :
  lowest_free pm used e = Some r ->
  In r (counters pm) /\ eligible pm e r = true /\ ~ In r used.
Proof.
  unfold lowest_free. intro H. apply find_some in H. destruct H as [Hin Hb].
  apply andb_true_iff in Hb. destruct Hb as [He Hf].
  apply is_free_spec in Hf. auto.
Qed.

Lemma counters_in_bounds (r : nat) : In r (counters pm) <-> in_bounds pm r.
Proof. unfold counters, in_bounds. apply in_seq. Qed.

(** What [place] returns when no event meets a conflict. *)
Lemma place_conflict_free (events : list Z) :
  forall used,
    conflict_free pm used events ->
    exists asg,
      place pm pol used events = inr asg
      /\ map ca_event asg = events
      /\ NoDup (map ca_reg asg)
      /\ Forall (fun r => in_bounds pm r /\ ~ In r used) (map ca_reg asg)
      /\ Forall (fun a => eligible pm (ca_event a) (ca_reg a) = true
                          /\ ca_plm a = privilege_level pol
                          /\ ca_system_wide a = system_wide pol) asg.
Proof.
  induction events as [|e events IH]; intros used Hfree.
  - exists []. simpl. repeat split; constructor.
  - simpl in Hfree. destruct Hfree as (r & Hr & Hfree).
    destruct (IH (r :: used) Hfree) as (asg & Hplace & Hev & Hnd & Hregs & Hel).
    destruct (lowest_free_spec _ _ _ Hr) as (Hin & Helig & Hnew).
    simpl. rewrite Hr, Hplace. eexists. split; [reflexivity|].
    simpl. repeat split.
    + now rewrite Hev.
    + constructor; [|assumption].
      intro Hdup. rewrite Forall_forall in Hregs.
      destruct (Hregs r Hdup) as [_ Hnot]. apply Hnot. now left.
    + constructor.
      * split; [now apply counters_in_bounds|assumption].
      * eapply Forall_impl; [|exact Hregs].
        intros x [Hb Hx]. split; [assumption|].
        intro Hu. apply Hx. now right.
    + constructor; [|assumption]. simpl. auto.
Qed.

(** C1: for a request no larger than the capacity of the platform and
    free of placement conflicts, [allocate] returns assignments, one for
    each requested event and in the order of the request, whose registers
    are pairwise distinct and within the bounds of the hardware. *)
Theorem allocate_one_assignment_per_event (events : list Z) :
  (List.length events <= capacity pm)%nat ->
  no_placement_conflict pm events ->
  exists asg,
    allocate pm events pol = inr asg
    /\ List.length asg = List.length events
    /\ map ca_event asg = events
    /\ NoDup (map ca_reg asg)
    /\ Forall (in_bounds pm) (map ca_reg asg).
Proof.
  intros Hsize Hfree.
  destruct (place_conflict_free events [] Hfree)
    as (asg & Hplace & Hev & Hnd & Hregs & _).
  exists asg. unfold allocate.
  assert (Hcap : (capacity pm <? List.length events)%nat = false)
    by (apply Nat.ltb_ge; exact Hsize).
  rewrite Hcap. repeat split; try assumption.
  - rewrite <- Hev. now rewrite length_map.
  - eapply Forall_impl; [|exact Hregs]. now intros r [Hb _].
Qed.

(** A request larger than the capacity is refused as [TooManyEvents],
    whatever its events. *)
Lemma allocate_too_many (events : list Z) :
  (capacity pm < List.length events)%nat ->
  allocate pm events pol = inl TooManyEvents.
Proof.
  intro H. unfold allocate. apply Nat.ltb_lt in H. now rewrite H.
Qed.

Lemma lowest_free_exists (used : list nat) (e : Z) :
  (forall r, In r (counters pm) -> eligible pm e r = true) ->
  (List.length used < capacity pm)%nat ->
  exists r, lowest_free pm used e = Some r.
Proof.
  intros Hany Hroom. unfold lowest_free.
  destruct (find _ (counters pm)) as [r|] eqn:Hfind; [eauto|].
  exfalso.
  assert (Hincl : incl (counters pm) used).
  { intros r Hr. pose proof (find_none _ _ Hfind r Hr) as Hb.
    simpl in Hb. rewrite (Hany r Hr) in Hb. simpl in Hb.
    destruct (in_dec Nat.eq_dec r used) as [Hin | Hnot]; [assumption|].
    apply is_free_spec in Hnot. congruence. }
  apply NoDup_incl_length in Hincl; [|apply seq_NoDup].
  unfold counters in Hincl. rewrite length_seq in Hincl. lia.
Qed.

(** Events that any counter can host never conflict while registers
    remain: a request of at most [capacity] such events is free of
    placement conflicts. *)
Lemma unrestricted_conflict_free (events : list Z) :
  forall used,
    (forall e r, In e events -> In r (counters pm) -> eligible pm e r = true) ->
    (List.length used + List.length events <= capacity pm)%nat ->
    conflict_free pm used events.
Proof.
  induction events as [|e events IH]; intros used Hany Hroom; simpl; [exact I|].
  simpl in Hroom.
  destruct (lowest_free_exists used e) as [r Hr].
  - intros r Hr. apply Hany; [now left|assumption].
  - lia.
  - exists r. split; [assumption|].
    apply IH; [|simpl; lia].
    intros e' r' He' Hr'. apply Hany; [now right|assumption].
Qed.

End Allocator.

(** ** The program on the Itanium-like environment *)

Lemma allocate_one_assignment_per_event_witness :
  (List.length [106; 18] <= capacity itanium_pmu)%nat
  /\ no_placement_conflict itanium_pmu [106; 18]
  /\ exists asg,
       allocate itanium_pmu [106; 18]
         {| privilege_level := 1; system_wide := true |} = inr asg
       /\ List.length asg = List.length [106; 18]
       /\ map ca_event asg = [106; 18]
       /\ NoDup (map ca_reg asg)
       /\ Forall (in_bounds itanium_pmu) (map ca_reg asg).
Proof.
  assert (Hsize : (List.length [106; 18] <= capacity itanium_pmu)%nat)
    by (simpl; lia).
  assert (Hfree : no_placement_conflict itanium_pmu [106; 18]).
  { unfold no_placement_conflict. simpl.
    exists 6%nat. split; [reflexivity|].
    exists 4%nat. split; [reflexivity|]. exact I. }
  split; [exact Hsize|]. split; [exact Hfree|].
  exact (allocate_one_assignment_per_event itanium_pmu
           {| privilege_level := 1; system_wide := true |}
           [106; 18] Hsize Hfree).
Defined.

(** The scenarios of the specification: two events on four counters; five
    events on four counters; and a request on which first fit meets a
    conflict. *)
Example allocate_two_events :
  allocate itanium_pmu [18; 8] {| privilege_level := 1; system_wide := true |}
  = inr [ {| ca_event := 18; ca_reg := 4; ca_plm := 1;
             ca_system_wide := true |};
          {| ca_event := 8; ca_reg := 5; ca_plm := 1;
             ca_system_wide := true |} ].
Proof. reflexivity. Qed.

Example allocate_five_on_four :
  allocate itanium_pmu [18; 8; 18; 8; 18]
    {| privilege_level := 1; system_wide := true |}
  = inl TooManyEvents.
Proof. apply allocate_too_many. simpl. lia. Qed.

Example allocate_conflict :
  allocate itanium_pmu [106; 106; 106]
    {| privilege_level := 1; system_wide := true |}
  = inl UnsatisfiableConstraint.
Proof. reflexivity. Qed.

Lemma session_operations_in_order_witness :
  fst (run itanium_headers (demo_env itanium_pmu) ["syst"] demo_kernel0)
  = Done 0
  /\ session_cmds
       (w_trace
          (snd (run itanium_headers (demo_env itanium_pmu) ["syst"]
                  demo_kernel0)))
     = [ PFM_CREATE_CONTEXT; PFM_ENABLE; PFM_WRITE_PMCS; PFM_WRITE_PMDS;
         PFM_START; PFM_STOP; PFM_READ_PMDS; PFM_DESTROY_CONTEXT ].
Proof.
  assert (Hdone :
    fst (run itanium_headers (demo_env itanium_pmu) ["syst"] demo_kernel0)
    = Done 0) by (vm_compute; reflexivity).
  split; [exact Hdone|].
  exact (session_operations_in_order itanium_headers (demo_env itanium_pmu)
           ["syst"] demo_kernel0 Hdone).
Defined.

Lemma too_many_events_before_session_witness :
  pfm_initialize (demo_env itanium_pmu) = PFMLIB_SUCCESS itanium_headers
  /\ Z.of_nat (List.length ["syst"; "e1"; "e2"; "e3"; "e4"; "e5"]) - 1
     > pfm_get_num_counters (demo_env itanium_pmu)
  /\ run itanium_headers (demo_env itanium_pmu)
       ["syst"; "e1"; "e2"; "e3"; "e4"; "e5"] demo_kernel0
     = (Exit 1,
        {| w_kernel := demo_kernel0;
           w_trace := [Lib_initialize; Lib_get_num_counters;
                       Stdout ("Too many events specified" ++ nl)] |}).
Proof.
  assert (Hinit : pfm_initialize (demo_env itanium_pmu)
                  = PFMLIB_SUCCESS itanium_headers) by reflexivity.
  assert (Hmany : Z.of_nat (List.length ["syst"; "e1"; "e2"; "e3"; "e4"; "e5"]) - 1
                  > pfm_get_num_counters (demo_env itanium_pmu))
    by (simpl; lia).
  split; [exact Hinit|]. split; [exact Hmany|].
  exact (too_many_events_before_session itanium_headers
           (demo_env itanium_pmu) _ demo_kernel0 Hinit Hmany).
Defined.

Lemma unknown_event_stops_before_allocation_witness :
  resolve itanium_catalog "bogus_event" = inl UnknownEvent
  /\ fst (run itanium_headers (demo_env itanium_pmu)
            ["syst"; "cpu_cycles"; "bogus_event"; "L2_MISSES"] demo_kernel0)
     = Exit 1
  /\ w_trace
       (snd (run itanium_headers (demo_env itanium_pmu)
               ["syst"; "cpu_cycles"; "bogus_event"; "L2_MISSES"]
               demo_kernel0))
     = [ Lib_initialize; Lib_get_num_counters; Lib_set_options 0;
         Lib_find_event "cpu_cycles" 0; Lib_find_event "bogus_event" 1;
         Stderr ("Cannot find bogus_event event" ++ nl) ].
Proof.
  assert (Hfind : forall name u,
    pfm_find_event (demo_env itanium_pmu) name u
    = spec_find_event itanium_headers itanium_catalog name u)
    by reflexivity.
  assert (Hgood : forall g, In g ["cpu_cycles"] ->
                            exists d, In (g, d) itanium_catalog).
  { intros g [<- | []]. exists 18. simpl. auto. }
  assert (Hbad : forall d, ~ In ("bogus_event", d) itanium_catalog).
  { intros d Hin. simpl in Hin.
    repeat (destruct Hin as [Hin | Hin]; [discriminate Hin|]).
    exact Hin. }
  destruct (unknown_event_stops_before_allocation itanium_headers
              (demo_env itanium_pmu) itanium_catalog
              ["syst"; "cpu_cycles"; "bogus_event"; "L2_MISSES"] demo_kernel0
              ["cpu_cycles"] "bogus_event" ["L2_MISSES"]
              Hfind eq_refl ltac:(simpl; lia) eq_refl Hgood Hbad)
    as (Hunknown & Hrun & _).
  split; [exact Hunknown|].
  rewrite Hrun. split; reflexivity.
Defined.

Lemma arm_writes_controls_then_zeroed_counters_witness :
  exists pd,
    In (PFM_WRITE_PMDS, Arg_regs pd, 2)
       (session_calls
          (w_trace (snd (run itanium_headers (demo_env itanium_pmu) ["syst"]
                           demo_kernel0))))
    /\ firstn 2 pd = [ {| reg_num := 4; reg_value := 0 |};
                       {| reg_num := 5; reg_value := 0 |} ]
    /\ Forall (fun r => reg_value r = 0) pd.
Proof.
  set (pd := pd_of itanium_headers
               (evt_of itanium_headers (demo_env itanium_pmu)
                  (requested ["syst"]))
               (snd (fst (dispatched itanium_headers (demo_env itanium_pmu)
                            ["syst"])))).
  assert (Hin :
    In (PFM_WRITE_PMDS, Arg_regs pd, 2)
       (session_calls
          (w_trace (snd (run itanium_headers (demo_env itanium_pmu) ["syst"]
                           demo_kernel0))))).
  { vm_compute. do 3 right. left. reflexivity. }
  exists pd. split; [exact Hin|]. split; [vm_compute; reflexivity|].
  destruct (arm_writes_controls_then_zeroed_counters itanium_headers
              (demo_env itanium_pmu) ["syst"] demo_kernel0 _ _ Hin)
    as (pc & cnt & rest & _ & _ & Harg & _ & Hzero & _).
  pose proof (f_equal (fun a => match a with
                                | Arg_regs l => l
                                | _ => []
                                end) Harg) as Hpd.
  cbv beta iota in Hpd. rewrite Hpd. exact Hzero.
Defined.

(** The lines follow the request, not the register numbers: [L2_MISSES],
    asked for first, sits on PMD6 and is printed before [cpu_cycles] on
    PMD4. *)
Example rows_not_in_register_order :
  stdout_of
    (w_trace (snd (run itanium_headers (demo_env itanium_pmu)
                     ["syst"; "L2_MISSES"; "cpu_cycles"] demo_kernel0)))
  = [ "<Press a key to stop monitoring>" ++ nl;
      "<Monitoring stopped on CPU0>" ++ nl ++ nl;
      "PMD6                 6000 L2_MISSES" ++ nl;
      "PMD4                 4000 cpu_cycles" ++ nl ].
Proof. vm_compute. reflexivity. Qed.

Lemma create_context_binds_one_cpu_witness :
  In (Sys_perfmonctl 4242 PFM_CREATE_CONTEXT
        (Arg_ctx {| ctx_flags := 2; ctx_cpu_mask := 1 |}) 1)
     (w_trace (snd (run itanium_headers (demo_env itanium_pmu) ["syst"]
                      demo_kernel0)))
  /\ exists ctx,
       Arg_ctx {| ctx_flags := 2; ctx_cpu_mask := 1 |} = Arg_ctx ctx
       /\ one_bit_set (ctx_cpu_mask ctx).
Proof.
  assert (Hin :
    In (Sys_perfmonctl 4242 PFM_CREATE_CONTEXT
          (Arg_ctx {| ctx_flags := 2; ctx_cpu_mask := 1 |}) 1)
       (w_trace (snd (run itanium_headers (demo_env itanium_pmu) ["syst"]
                        demo_kernel0)))).
  { vm_compute. do 6 right. left. reflexivity. }
  split; [exact Hin|].
  exact (create_context_binds_one_cpu itanium_headers (demo_env itanium_pmu)
           ["syst"] demo_kernel0 _ _ _ Hin).
Defined.


(** On a platform with one counter the two default events pass the check
    of [main]; it is [pfm_dispatch_events] that refuses them. *)
Example default_list_on_one_counter :
  run itanium_headers (demo_env one_counter_pmu) ["syst"] demo_kernel0
  = (Exit 1,
     {| w_kernel := demo_kernel0;
        w_trace :=
          [ Lib_initialize; Lib_get_num_counters; Lib_set_options 0;
            Lib_find_event "cpu_cycles" 0;
            Lib_find_event "IA64_INST_RETIRED" 1;
            Lib_dispatch_events
              {| pfp_evt := [18; 8; 0; 0]; pfp_count := 2;
                 pfp_dfl_plm := 1; pfp_pm := 1 |} 16;
            Stderr ("cannot configure events: error -2" ++ nl) ] |}).
Proof. vm_compute. reflexivity. Qed.

(** When the library uses more PMCs than there are events, [main] writes
    them all with [PFM_WRITE_PMCS] (three here) and writes and reads one
    PMD for each event (two). *)
Example more_pmcs_than_events :
  fst (run itanium_headers (demo_env_extra_pmc itanium_pmu) ["syst"]
         demo_kernel0) = Done 0
  /\ map (fun c => (fst (fst c), snd c))
       (session_calls
          (w_trace (snd (run itanium_headers (demo_env_extra_pmc itanium_pmu)
                           ["syst"] demo_kernel0))))
     = [ (PFM_CREATE_CONTEXT, 1); (PFM_ENABLE, 0); (PFM_WRITE_PMCS, 3);
         (PFM_WRITE_PMDS, 2); (PFM_START, 0); (PFM_STOP, 0);
         (PFM_READ_PMDS, 2); (PFM_DESTROY_CONTEXT, 0) ].
Proof. split; vm_compute; reflexivity. Qed.

(** Whether counters read back at once hold what was written is a matter
    of the kernel and of the PMU, not of syst.c: it is so in one of the
    environments above and not in the other. *)
Example write_then_read_stopped_pmu :
  write_then_read (demo_env itanium_pmu) demo_kernel0
    [ {| reg_num := 4; reg_value := 0 |}; {| reg_num := 5; reg_value := 0 |} ] 2
  = [ {| reg_num := 4; reg_value := 0 |}; {| reg_num := 5; reg_value := 0 |} ].
Proof. vm_compute. reflexivity. Qed.

Example write_then_read_free_running_pmu :
  write_then_read (demo_env_free_running itanium_pmu) demo_kernel0
    [ {| reg_num := 4; reg_value := 0 |}; {| reg_num := 5; reg_value := 0 |} ] 2
  = [ {| reg_num := 4; reg_value := 1 |}; {| reg_num := 5; reg_value := 1 |} ].
Proof. vm_compute. reflexivity. Qed.

(** * More on the runs of [main] *)

Section MoreRuns.

Context (hdr : perfmon_headers) {K : Type} (E : environment K).

Ltac reduce :=
  cbv beta iota zeta delta
    [bind sys_perfmonctl get_errno fatal_error printf emit exit ret
     sys_getchar w_kernel w_trace log fst snd].

Ltac call r k' :=
  match goal with
  | |- context [perfmonctl E ?k ?p ?c ?a ?n] =>
      lazymatch k with
      | context [perfmonctl] => fail
      | _ => destruct (perfmonctl E k p c a n) as [r k']
      end
  end; reduce.

(** *** From the dispatch to the session *)

Lemma resolves_all_or_not (good rest : list string) (bad : string) :
  forallb (resolves hdr E) (good ++ bad :: rest) = true ->
  resolves hdr E bad = false -> False.
Proof.
  intros Hall Hbad. rewrite forallb_app in Hall.
  apply andb_true_iff in Hall. destruct Hall as [_ Hall].
  simpl in Hall. rewrite Hbad in Hall. discriminate Hall.
Qed.

(** A run that reaches the session is the session, started on the trace
    of the library calls. *)
Lemma run_reaches_session (argv : list string) (k : K) pc cnt :
  reaches_session hdr E argv pc cnt ->
  run hdr E argv k
  = session hdr E (evt_of hdr E (requested argv)) pc cnt
      {| w_kernel := k;
         w_trace := dispatch_prelude hdr E (requested argv) |}.
Proof.
  intros (Hinit & Hfew & Hok & Hdisp).
  unfold run, main. rewrite (requested_eq argv). reduce.
  apply Z.eqb_eq in Hinit. rewrite Hinit.
  assert (Hcheck : (Z.of_nat (List.length argv) - 1 >? pfm_get_num_counters E)
                   = false).
  { rewrite Z.gtb_ltb. apply Z.ltb_ge. exact Hfew. }
  rewrite Hcheck. unfold monitor. reduce.
  rewrite (find_events_ok hdr E) by assumption. reduce.
  change (0 + List.length (requested argv))%nat
    with (List.length (requested argv)).
  fold (evt_of hdr E (requested argv)).
  unfold NUM_PMCS in *. rewrite Hdisp, Z.eqb_refl.
  unfold dispatch_prelude, lib_prelude, NUM_PMCS.
  rewrite <- !app_assoc. reflexivity.
Qed.

Lemma session_cmds_app (a b : list io) :
  session_cmds (a ++ b) = (session_cmds a ++ session_cmds b)%list.
Proof. apply flat_map_app. Qed.

Lemma session_cmds_prelude (p : list string) :
  session_cmds (dispatch_prelude hdr E p) = [].
Proof.
  now rewrite (session_cmds_calls (dispatch_prelude hdr E p)),
    (session_calls_prelude hdr E).
Qed.

(** *** Which command failed, and what is reported *)

Lemma stderr_of_app (a b : list io) :
  stderr_of (a ++ b) = (stderr_of a ++ stderr_of b)%list.
Proof. apply flat_map_app. Qed.

Lemma stderr_of_find_calls (p : list string) :
  forall i, stderr_of (find_calls p i) = [].
Proof. induction p as [|name p IH]; intro i; simpl; auto. Qed.

Lemma stderr_of_rows (n : nat) :
  forall i evts pd, stderr_of (rows_io E n i evts pd) = [].
Proof. induction n as [|n IH]; intros; simpl; auto. Qed.

Ltac reported evt pc cnt j c :=
  right; split; [reflexivity|];
  eexists (firstn j (session_head hdr E evt pc cnt)), (firstn (j - 1) session_order), c;
  split; [reflexivity|];
  split; [cbn [firstn app]; rewrite <- ?app_assoc; reflexivity|reflexivity].

Lemma session_report evt pc cnt (w : world K) :
  (fst (session hdr E evt pc cnt w) = Done 0
   /\ exists tr,
        w_trace (snd (session hdr E evt pc cnt w)) = (w_trace w ++ tr)%list
        /\ stderr_of tr = [])
  \/ (fst (session hdr E evt pc cnt w) = Exit 1
      /\ exists pre cs c,
           session_cmds pre = (cs ++ [c])%list
           /\ w_trace (snd (session hdr E evt pc cnt w))
              = (w_trace w ++ pre
                 ++ [Stderr (failure_message hdr E c
                               (errno E (w_kernel
                                           (snd (session hdr E evt pc cnt w)))))])%list
           /\ stderr_of pre = []).
Proof.
  destruct w as [k0 t0]. unfold session. reduce.
  call r1 k1.
  destruct (r1 =? -1).
  { right.
    destruct (errno E k1 =? ENOSYS hdr) eqn:He; reduce;
      (split; [reflexivity|]);
      exists (firstn 1 (session_head hdr E evt pc cnt)), [], PFM_CREATE_CONTEXT;
      (split; [reflexivity|]);
      unfold failure_message; rewrite He;
      (split; [cbn [firstn app]; rewrite <- ?app_assoc; reflexivity
              |reflexivity]). }
  call r2 k2.
  destruct (r2 =? -1); [reported evt pc cnt 2%nat PFM_ENABLE|].
  call r3 k3.
  destruct (r3 =? -1); [reported evt pc cnt 3%nat PFM_WRITE_PMCS|].
  call r4 k4.
  destruct (r4 =? -1); [reported evt pc cnt 4%nat PFM_WRITE_PMDS|].
  call r5 k5.
  destruct (r5 =? -1); [reported evt pc cnt 5%nat PFM_START|].
  call r6 k6.
  destruct (r6 =? -1).
  { right; split; [reflexivity|].
    eexists (firstn 8 (session_head hdr E evt pc cnt)),
      [PFM_CREATE_CONTEXT; PFM_ENABLE; PFM_WRITE_PMCS; PFM_WRITE_PMDS;
       PFM_START], PFM_STOP.
    split; [reflexivity|].
    split; [cbn [firstn app]; rewrite <- ?app_assoc; reflexivity|reflexivity]. }
  call r7 k7.
  destruct (r7 =? -1).
  { right; split; [reflexivity|].
    eexists (session_head hdr E evt pc cnt),
      [PFM_CREATE_CONTEXT; PFM_ENABLE; PFM_WRITE_PMCS; PFM_WRITE_PMDS;
       PFM_START; PFM_STOP], PFM_READ_PMDS.
    split; [reflexivity|].
    split; [cbn [firstn app]; rewrite <- ?app_assoc; reflexivity|reflexivity]. }
  rewrite (print_results_run E). reduce.
  call r8 k8.
  destruct (r8 =? -1).
  - right; split; [reflexivity|].
    eexists (session_head hdr E evt pc cnt ++ result_rows hdr E evt pc k7
             ++ [Sys_perfmonctl (getpid E) PFM_DESTROY_CONTEXT Arg_null 0])%list,
      [PFM_CREATE_CONTEXT; PFM_ENABLE; PFM_WRITE_PMCS; PFM_WRITE_PMDS;
       PFM_START; PFM_STOP; PFM_READ_PMDS], PFM_DESTROY_CONTEXT.
    split; [|split].
    + rewrite !session_cmds_app. unfold result_rows.
      rewrite (session_cmds_calls (rows_io _ _ _ _ _)),
        (session_calls_rows E). reflexivity.
    + unfold result_rows, session_head, pd_of, NUM_PMDS.
      cbn [app]. rewrite <- ?app_assoc. reflexivity.
    + rewrite !stderr_of_app. unfold result_rows.
      rewrite stderr_of_rows. reflexivity.
  - left. split; [reflexivity|].
    eexists (session_head hdr E evt pc cnt ++ result_rows hdr E evt pc k7
             ++ [Sys_perfmonctl (getpid E) PFM_DESTROY_CONTEXT Arg_null 0])%list.
    split.
    + unfold result_rows, session_head, pd_of, NUM_PMDS.
      cbn [app]. rewrite <- ?app_assoc. reflexivity.
    + rewrite !stderr_of_app. unfold result_rows.
      rewrite stderr_of_rows. reflexivity.
Qed.


Lemma stderr_of_prelude (p : list string) :
  stderr_of (dispatch_prelude hdr E p) = [].
Proof.
  unfold dispatch_prelude. rewrite !stderr_of_app, stderr_of_find_calls.
  reflexivity.
Qed.

(** X1: when a run exits with status 1 and [c] is the last command it
    sent to [perfmonctl], the last thing it did was to write to [stderr]
    the message that [main] has for a failure of [c], with the [errno] the
    kernel left; nothing else went to [stderr].  By [failure_message], a
    failed [PFM_START] or [PFM_STOP] is reported in the words of
    [PFM_WRITE_PMCS]. *)
Theorem failed_call_is_reported (argv : list string) (k : K)
  (cs : list perfmon_cmd) (c : perfmon_cmd) :
  fst (run hdr E argv k) = Exit 1 ->
  session_cmds (w_trace (snd (run hdr E argv k))) = (cs ++ [c])%list ->
  exists pre,
    w_trace (snd (run hdr E argv k))
    = (pre ++ [Stderr (failure_message hdr E c
                         (errno E (w_kernel (snd (run hdr E argv k)))))])%list
    /\ stderr_of pre = [].
Proof.
  intros Hexit Hcmds.
  destruct (run_calls hdr E argv k) as (j & Hcalls & _ & Hreach & _).
  assert (Hj : (0 < j)%nat).
  { destruct j as [|j]; [|lia]. exfalso.
    rewrite session_cmds_calls, Hcalls in Hcmds. simpl in Hcmds.
    now apply app_cons_not_nil in Hcmds. }
  destruct (Hreach Hj) as (pc & cnt & Hr).
  rewrite (run_reaches_session argv k pc cnt Hr) in *.
  destruct (session_report (evt_of hdr E (requested argv)) pc cnt
              {| w_kernel := k;
                 w_trace := dispatch_prelude hdr E (requested argv) |})
    as [[Hdone _] | (_ & pre & cs0 & c0 & Hpre & Htr & Herr)].
  - rewrite Hdone in Hexit. discriminate Hexit.
  - cbn [w_trace] in Htr. rewrite Htr in Hcmds.
    rewrite !session_cmds_app, session_cmds_prelude, Hpre in Hcmds.
    simpl in Hcmds. rewrite app_nil_r in Hcmds.
    apply app_inj_tail in Hcmds. destruct Hcmds as [_ <-].
    exists (dispatch_prelude hdr E (requested argv) ++ pre)%list. split.
    + rewrite Htr at 1. now rewrite app_assoc.
    + now rewrite stderr_of_app, stderr_of_prelude, Herr.
Qed.

(** X2: in every run, failing or not, the commands sent to [perfmonctl]
    are the first [j] of the eight of [session_order]: none is skipped,
    repeated or sent out of order. *)
Theorem session_commands_form_a_prefix (argv : list string) (k : K) :
  exists j,
    (j <= 8)%nat
    /\ session_cmds (w_trace (snd (run hdr E argv k)))
       = firstn j session_order.
Proof.
  destruct (run_calls hdr E argv k) as (j & Hcalls & Hj & _).
  exists j. split; [exact Hj|].
  rewrite session_cmds_calls, Hcalls, <- firstn_map.
  reflexivity.
Qed.

Lemma reached_calls_create (argv : list string) (k : K) pc cnt :
  reaches_session hdr E argv pc cnt ->
  exists rest,
    session_calls (w_trace (snd (run hdr E argv k)))
    = (PFM_CREATE_CONTEXT, Arg_ctx (ctx0 hdr), 1) :: rest.
Proof.
  intro Hr. rewrite (run_reaches_session argv k pc cnt Hr).
  match goal with
  | |- context [session hdr E ?evt ?pc ?cnt ?w] =>
      destruct (session_run hdr E evt pc cnt w) as (o & k' & tr & Hrun & Hshape);
      rewrite Hrun
  end.
  cbn [snd w_trace].
  rewrite session_calls_app, (session_calls_prelude hdr E). cbn [app].
  destruct Hshape as [j msg Hj | kr msg | kr].
  - simpl in Hj.
    destruct Hj as [<-|[<-|[<-|[<-|[<-|[<-|[<-|[]]]]]]]];
      eexists; reflexivity.
  - eexists; reflexivity.
  - eexists; reflexivity.
Qed.

(** X3: [perfmonctl] is called at all exactly when the library is
    initialised, the command line passes the check, every name resolves
    and [pfm_dispatch_events] succeeds; and whenever it is called, the
    first call is [PFM_CREATE_CONTEXT] on [ctx0] with count 1. *)
Theorem perfmonctl_called_iff_dispatched (argv : list string) (k : K) :
  ((exists pc cnt, reaches_session hdr E argv pc cnt)
   <-> session_calls (w_trace (snd (run hdr E argv k))) <> [])
  /\ (forall c rest,
        session_calls (w_trace (snd (run hdr E argv k))) = c :: rest ->
        c = (PFM_CREATE_CONTEXT, Arg_ctx (ctx0 hdr), 1)).
Proof.
  assert (Hback :
    session_calls (w_trace (snd (run hdr E argv k))) <> [] ->
    exists pc cnt, reaches_session hdr E argv pc cnt).
  { intro Hsome.
    destruct (run_calls hdr E argv k) as (j & Hj & _ & Hreach & _).
    apply Hreach. destruct j as [|j]; [|lia].
    exfalso. apply Hsome. rewrite Hj. reflexivity. }
  split; [split|].
  - intros (pc & cnt & Hr).
    destruct (reached_calls_create argv k pc cnt Hr) as (rest & Hc).
    rewrite Hc. discriminate.
  - exact Hback.
  - intros c rest Hc.
    destruct Hback as (pc & cnt & Hr); [rewrite Hc; discriminate|].
    destruct (reached_calls_create argv k pc cnt Hr) as (rest' & Hc').
    rewrite Hc' in Hc. now injection Hc as <- _.
Qed.

(** X4: a run that never calls [perfmonctl] exits with status 1 and
    leaves the kernel in the state it found. *)
Theorem kernel_untouched_before_session (argv : list string) (k : K) :
  session_calls (w_trace (snd (run hdr E argv k))) = [] ->
  fst (run hdr E argv k) = Exit 1
  /\ w_kernel (snd (run hdr E argv k)) = k.
Proof.
  intro Hnone.
  assert (Hnot : forall pc cnt, ~ reaches_session hdr E argv pc cnt).
  { intros pc cnt Hr.
    destruct (reached_calls_create argv k pc cnt Hr) as (rest & Hc).
    rewrite Hc in Hnone. discriminate Hnone. }
  clear Hnone. unfold run, main. rewrite (requested_eq argv). reduce.
  destruct (pfm_initialize E =? PFMLIB_SUCCESS hdr) eqn:Hinit;
    [|split; reflexivity].
  destruct (Z.of_nat (List.length argv) - 1 >? pfm_get_num_counters E)
    eqn:Hmany; [split; reflexivity|].
  unfold monitor. reduce.
  destruct (resolves_split hdr E (requested argv))
    as [Hok | (good & bad & rest & Hp & Hgood & Hbad)].
  - rewrite (find_events_ok hdr E) by assumption. reduce.
    change (0 + List.length (requested argv))%nat
      with (List.length (requested argv)).
    fold (evt_of hdr E (requested argv)).
    destruct (pfm_dispatch_events E (evt_of hdr E (requested argv))
                (repeat zero_reg (NUM_PMCS hdr)) (Z.of_nat (NUM_PMCS hdr)))
      as [[r pc] cnt] eqn:Hdisp.
    destruct (r =? PFMLIB_SUCCESS hdr) eqn:Hr; [|split; reflexivity].
    exfalso. apply (Hnot pc cnt).
    apply Z.eqb_eq in Hinit. apply Z.eqb_eq in Hr. subst r.
    rewrite Z.gtb_ltb in Hmany. apply Z.ltb_ge in Hmany.
    repeat split; assumption.
  - rewrite Hp, (find_events_unknown hdr E) by assumption.
    split; reflexivity.
Qed.


(** *** What is written where *)

Lemma stderr_of_head_prefix (j : nat) evt pc cnt :
  stderr_of (firstn j (session_head hdr E evt pc cnt)) = [].
Proof.
  do 10 (destruct j as [|j]; [reflexivity|]).
  unfold session_head. cbn [firstn]. now rewrite firstn_nil.
Qed.

(** X5: a run that returns 0 writes nothing to [stderr].  A run that
    exits with status 1 ends on its only error message.  When
    [pfm_initialize] fails and when the command line names too many
    events, the message is on [stdout], it is all that the run prints and
    nothing goes to [stderr]; in every other failure the message is on
    [stderr], with nothing on [stderr] before it. *)
Theorem one_report_per_failure (argv : list string) (k : K) :
  (pfm_initialize E <> PFMLIB_SUCCESS hdr ->
   fst (run hdr E argv k) = Exit 1
   /\ w_trace (snd (run hdr E argv k))
      = [Lib_initialize; Stdout ("Can't initialize library" ++ nl)])
  /\ (pfm_initialize E = PFMLIB_SUCCESS hdr ->
      Z.of_nat (List.length argv) - 1 > pfm_get_num_counters E ->
      fst (run hdr E argv k) = Exit 1
      /\ w_trace (snd (run hdr E argv k))
         = [Lib_initialize; Lib_get_num_counters;
            Stdout ("Too many events specified" ++ nl)])
  /\ (pfm_initialize E = PFMLIB_SUCCESS hdr ->
      Z.of_nat (List.length argv) - 1 <= pfm_get_num_counters E ->
      (fst (run hdr E argv k) = Done 0
       /\ stderr_of (w_trace (snd (run hdr E argv k))) = [])
      \/ (fst (run hdr E argv k) = Exit 1
          /\ exists pre msg,
               w_trace (snd (run hdr E argv k)) = (pre ++ [Stderr msg])%list
               /\ stderr_of pre = [])).
Proof.
  destruct (main_run_shape hdr E argv k)
    as [Hi | Hi Hm | good bad rest Hi Hm Hp Hg Hb | r pc cnt Hi Hm Hok Hd Hr
        | pc cnt j msg Hreach Hj | pc cnt kr msg Hreach | pc cnt kr Hreach].
  - repeat split; intros; try reflexivity; contradiction.
  - repeat split; intros; try reflexivity; try contradiction; lia.
  - split; [intro; contradiction|]. split; [intros; lia|].
    intros _ _. right. split; [reflexivity|].
    exists (lib_prelude ++ find_calls (good ++ [bad]) 0)%list. eexists.
    split; [now rewrite <- app_assoc|].
    now rewrite stderr_of_app, stderr_of_find_calls.
  - split; [intro; contradiction|]. split; [intros; lia|].
    intros _ _. right. split; [reflexivity|].
    exists (dispatch_prelude hdr E (requested argv)). eexists.
    split; [reflexivity|apply stderr_of_prelude].
  - destruct Hreach as (Hi & Hm & _).
    split; [intro; contradiction|]. split; [intros; lia|].
    intros _ _. right. split; [reflexivity|].
    exists (dispatch_prelude hdr E (requested argv)
            ++ firstn j (session_head hdr E (evt_of hdr E (requested argv))
                           pc cnt))%list.
    exists msg. split; [now rewrite <- app_assoc|].
    now rewrite stderr_of_app, stderr_of_prelude, stderr_of_head_prefix.
  - destruct Hreach as (Hi & Hm & _).
    split; [intro; contradiction|]. split; [intros; lia|].
    intros _ _. right. split; [reflexivity|].
    exists (dispatch_prelude hdr E (requested argv)
            ++ session_head hdr E (evt_of hdr E (requested argv)) pc cnt
            ++ result_rows hdr E (evt_of hdr E (requested argv)) pc kr
            ++ [Sys_perfmonctl (getpid E) PFM_DESTROY_CONTEXT Arg_null 0])%list.
    exists msg. split.
    + rewrite <- !app_assoc. reflexivity.
    + rewrite !stderr_of_app, stderr_of_prelude. unfold result_rows.
      now rewrite stderr_of_rows.
  - destruct Hreach as (Hi & Hm & _).
    split; [intro; contradiction|]. split; [intros; lia|].
    intros _ _. left. split; [reflexivity|].
    rewrite !stderr_of_app, stderr_of_prelude. unfold result_rows.
    now rewrite stderr_of_rows.
Qed.

(** *** The lookups *)

Lemma lookups_app (a b : list io) :
  lookups (a ++ b) = (lookups a ++ lookups b)%list.
Proof. apply flat_map_app. Qed.

Lemma lookups_find_calls (p : list string) :
  forall i, lookups (find_calls p i) = combine p (seq i (List.length p)).
Proof.
  induction p as [|name p IH]; intro i; simpl; [reflexivity|].
  now rewrite IH.
Qed.

Lemma lookups_rows (n : nat) :
  forall i evts pd, lookups (rows_io E n i evts pd) = [].
Proof. induction n as [|n IH]; intros; simpl; auto. Qed.

Lemma lookups_head_prefix (j : nat) evt pc cnt :
  lookups (firstn j (session_head hdr E evt pc cnt)) = [].
Proof.
  do 10 (destruct j as [|j]; [reflexivity|]).
  unfold session_head. cbn [firstn]. now rewrite firstn_nil.
Qed.

Lemma lookups_prelude (p : list string) :
  lookups (dispatch_prelude hdr E p)
  = combine p (seq 0 (List.length p)).
Proof.
  unfold dispatch_prelude. rewrite !lookups_app, lookups_find_calls.
  simpl. now rewrite app_nil_r.
Qed.

Lemma combine_firstn_all {A : Type} (l : list A) :
  combine (firstn (List.length l) l) (seq 0 (List.length l))
  = combine l (seq 0 (List.length l)).
Proof. now rewrite firstn_all. Qed.

Lemma lookups_prefix (argv : list string) (k : K) :
  exists m,
    (m <= List.length (requested argv))%nat
    /\ lookups (w_trace (snd (run hdr E argv k)))
       = combine (firstn m (requested argv)) (seq 0 m).
Proof.
  destruct (main_run_shape hdr E argv k)
    as [Hi | Hi Hm | good bad rest Hi Hm Hp Hg Hb | r pc cnt Hi Hm Hok Hd Hr
        | pc cnt j msg Hreach Hj | pc cnt kr msg Hreach | pc cnt kr Hreach].
  - exists 0%nat. split; [lia|reflexivity].
  - exists 0%nat. split; [lia|reflexivity].
  - exists (List.length (good ++ [bad])). rewrite Hp. split.
    + rewrite !length_app. simpl. lia.
    + rewrite !lookups_app, lookups_find_calls. simpl. rewrite app_nil_r.
      replace (good ++ bad :: rest)%list with ((good ++ [bad]) ++ rest)%list
        by (now rewrite <- app_assoc).
      now rewrite firstn_app, firstn_all, Nat.sub_diag, firstn_O, app_nil_r.
  - exists (List.length (requested argv)). split; [lia|].
    rewrite lookups_app, lookups_prelude, combine_firstn_all. simpl.
    now rewrite app_nil_r.
  - exists (List.length (requested argv)). split; [lia|].
    rewrite !lookups_app, lookups_prelude, lookups_head_prefix,
      combine_firstn_all.
    simpl. now rewrite app_nil_r.
  - exists (List.length (requested argv)). split; [lia|].
    rewrite !lookups_app, lookups_prelude, combine_firstn_all.
    unfold result_rows. rewrite lookups_rows. simpl. now rewrite app_nil_r.
  - exists (List.length (requested argv)). split; [lia|].
    rewrite !lookups_app, lookups_prelude, combine_firstn_all.
    unfold result_rows. rewrite lookups_rows. simpl. now rewrite app_nil_r.
Qed.

Lemma map_fst_combine_seq {A : Type} (l : list A) :
  forall s, map fst (combine l (seq s (List.length l))) = l.
Proof.
  induction l as [|a l IH]; intro s; simpl; [reflexivity|]. now rewrite IH.
Qed.

Lemma map_snd_combine_seq {A : Type} (l : list A) :
  forall s, map snd (combine l (seq s (List.length l)))
            = seq s (List.length l).
Proof.
  induction l as [|a l IH]; intro s; simpl; [reflexivity|]. now rewrite IH.
Qed.

(** X6: in every run the names are looked up in the order of the
    request, the [i]-th into slot [i], each once, up to some point [m]:
    the names given to [pfm_find_event] are the first [m] of the request
    and the slots are 0, ..., [m-1]. *)
Theorem lookups_follow_request (argv : list string) (k : K) :
  exists m,
    (m <= List.length (requested argv))%nat
    /\ map fst (lookups (w_trace (snd (run hdr E argv k))))
       = firstn m (requested argv)
    /\ map snd (lookups (w_trace (snd (run hdr E argv k)))) = seq 0 m.
Proof.
  destruct (lookups_prefix argv k) as (m & Hm & Hl).
  exists m. split; [exact Hm|]. rewrite Hl.
  assert (Hlen : List.length (firstn m (requested argv)) = m)
    by (rewrite length_firstn; lia).
  remember (firstn m (requested argv)) as l eqn:Hfirst. clear Hfirst Hl.
  subst m.
  split; [apply map_fst_combine_seq|apply map_snd_combine_seq].
Qed.

Lemma In_lookups (name : string) (i : nat) (tr : list io) :
  In (Lib_find_event name i) tr -> In (name, i) (lookups tr).
Proof.
  intro H. unfold lookups. apply in_flat_map.
  exists (Lib_find_event name i). simpl. auto.
Qed.

Lemma length_requested (argv : list string) :
  (1 < Z.of_nat (List.length argv)
   /\ Z.of_nat (List.length (requested argv))
      = Z.of_nat (List.length argv) - 1)
  \/ (Z.of_nat (List.length argv) <= 1 /\ requested argv = event_list).
Proof.
  unfold requested.
  destruct (Z.of_nat (List.length argv) >? 1) eqn:Hgt.
  - left. apply Z.gtb_gt in Hgt. split; [lia|].
    destruct argv as [|a argv]; cbn [tl List.length] in *; lia.
  - right. rewrite Z.gtb_ltb in Hgt. apply Z.ltb_ge in Hgt. auto.
Qed.

Lemma lookups_after_check (argv : list string) (k : K) :
  lookups (w_trace (snd (run hdr E argv k))) <> [] ->
  Z.of_nat (List.length argv) - 1 <= pfm_get_num_counters E.
Proof.
  intro Hsome.
  destruct (main_run_shape hdr E argv k)
    as [Hi | Hi Hmany | good bad rest Hi Hfew _ _ _
        | r pc cnt Hi Hfew _ _ _
        | pc cnt j msg (_ & Hfew & _) _ | pc cnt kr msg (_ & Hfew & _)
        | pc cnt kr (_ & Hfew & _)];
    try exact Hfew; exfalso; apply Hsome; reflexivity.
Qed.

(** X7: when the capacity that the library reports is at most the size
    of [evt.pfp_evt], and that size is at least the two entries of the
    default list, every slot [evt.pfp_evt+i] handed to [pfm_find_event]
    lies inside the array: the check on [argc - 1] keeps the loop within
    bounds. *)
Theorem lookup_slots_in_bounds (argv : list string) (k : K)
  (name : string) (i : nat) :
  pfm_get_num_counters E <= Z.of_nat (PMU_MAX_COUNTERS hdr) ->
  (2 <= PMU_MAX_COUNTERS hdr)%nat ->
  In (Lib_find_event name i) (w_trace (snd (run hdr E argv k))) ->
  (i < PMU_MAX_COUNTERS hdr)%nat.
Proof.
  intros Hcap Htwo Hin. apply In_lookups in Hin.
  assert (Hfew : Z.of_nat (List.length argv) - 1 <= pfm_get_num_counters E).
  { apply (lookups_after_check argv k). intro Hnil.
    rewrite Hnil in Hin. contradiction. }
  destruct (lookups_prefix argv k) as (m & Hm & Hl).
  rewrite Hl in Hin. apply in_combine_r in Hin. apply in_seq in Hin.
  destruct (length_requested argv) as [[Hgt Hlen] | [Hle Hdef]].
  - lia.
  - rewrite Hdef in Hm. simpl in Hm. lia.
Qed.


(** *** The call of [pfm_dispatch_events] *)

Lemma dispatch_calls_app (a b : list io) :
  dispatch_calls (a ++ b) = (dispatch_calls a ++ dispatch_calls b)%list.
Proof. apply flat_map_app. Qed.

Lemma dispatch_calls_find_calls (p : list string) :
  forall i, dispatch_calls (find_calls p i) = [].
Proof. induction p as [|name p IH]; intro i; simpl; auto. Qed.

Lemma dispatch_calls_rows (n : nat) :
  forall i evts pd, dispatch_calls (rows_io E n i evts pd) = [].
Proof. induction n as [|n IH]; intros; simpl; auto. Qed.

Lemma dispatch_calls_head_prefix (j : nat) evt pc cnt :
  dispatch_calls (firstn j (session_head hdr E evt pc cnt)) = [].
Proof.
  do 10 (destruct j as [|j]; [reflexivity|]).
  unfold session_head. cbn [firstn]. now rewrite firstn_nil.
Qed.

Lemma dispatch_calls_prelude (p : list string) :
  dispatch_calls (dispatch_prelude hdr E p)
  = [(evt_of hdr E p, Z.of_nat (NUM_PMCS hdr))].
Proof.
  unfold dispatch_prelude.
  rewrite !dispatch_calls_app, dispatch_calls_find_calls. reflexivity.
Qed.

(** X8: [pfm_dispatch_events] is called at most once in a run, and only
    after every requested name has resolved; it is then given the count
    of the request, the privilege level [PFM_PLM0], the privileged-monitor
    flag set to 1, and room for [NUM_PMCS] entries of [pc]. *)
Theorem dispatch_once_all_resolved (argv : list string) (k : K) :
  dispatch_calls (w_trace (snd (run hdr E argv k))) = []
  \/ (dispatch_calls (w_trace (snd (run hdr E argv k)))
      = [(evt_of hdr E (requested argv), Z.of_nat (NUM_PMCS hdr))]
      /\ forallb (resolves hdr E) (requested argv) = true
      /\ pfp_count (evt_of hdr E (requested argv))
         = Z.of_nat (List.length (requested argv))
      /\ pfp_dfl_plm (evt_of hdr E (requested argv)) = PFM_PLM0 hdr
      /\ pfp_pm (evt_of hdr E (requested argv)) = 1).
Proof.
  destruct (main_run_shape hdr E argv k)
    as [Hi | Hi Hm | good bad rest Hi Hm Hp Hg Hb | r pc cnt Hi Hm Hok Hd Hr
        | pc cnt j msg (_ & _ & Hok & _) Hj | pc cnt kr msg (_ & _ & Hok & _)
        | pc cnt kr (_ & _ & Hok & _)].
  - left. reflexivity.
  - left. reflexivity.
  - left. rewrite !dispatch_calls_app, dispatch_calls_find_calls. reflexivity.
  - right. rewrite dispatch_calls_app, dispatch_calls_prelude.
    repeat split; assumption.
  - right.
    rewrite !dispatch_calls_app, dispatch_calls_prelude,
      dispatch_calls_head_prefix.
    repeat split; assumption.
  - right. rewrite !dispatch_calls_app, dispatch_calls_prelude.
    unfold result_rows. rewrite dispatch_calls_rows.
    repeat split; assumption.
  - right. rewrite !dispatch_calls_app, dispatch_calls_prelude.
    unfold result_rows. rewrite dispatch_calls_rows.
    repeat split; assumption.
Qed.

(** *** The PMD arguments *)

Lemma nth_copy_reg_nums_above (n : nat) :
  forall i pc pd j,
    (i + n <= j)%nat ->
    nth j (copy_reg_nums n i pc pd) zero_reg = nth j pd zero_reg.
Proof.
  induction n as [|n IH]; intros i pc pd j Hj; simpl; [reflexivity|].
  rewrite IH by lia. apply nth_set_nth_neq. lia.
Qed.

(** X9: the array given to [PFM_WRITE_PMDS] has the [NUM_PMDS] entries of
    [pd]; when the [n] entries announced fit in it, entry [j < n] carries
    the register number that [pfm_dispatch_events] left in [pc[j]] and
    the value 0, and the entries from [n] on are still all zero. *)
Theorem pmd_arguments_mirror_pmcs (argv : list string) (k : K)
  (pd : list pfarg_reg_t) (n : Z) :
  In (PFM_WRITE_PMDS, Arg_regs pd, n)
     (session_calls (w_trace (snd (run hdr E argv k)))) ->
  (Z.to_nat n <= NUM_PMDS hdr)%nat ->
  n = Z.of_nat (List.length (requested argv))
  /\ List.length pd = NUM_PMDS hdr
  /\ forall j,
       nth j pd zero_reg
       = if (j <? Z.to_nat n)%nat
         then {| reg_num :=
                   reg_num (nth j (snd (fst (dispatched hdr E argv))) zero_reg);
                 reg_value := 0 |}
         else zero_reg.
Proof.
  intros Hin Hfit.
  destruct (run_calls hdr E argv k) as (j & Hcalls & _).
  rewrite Hcalls in Hin. apply In_firstn_In in Hin.
  unfold planned_calls in Hin. cbv zeta in Hin. simpl in Hin.
  repeat (destruct Hin as [Hin|Hin]; [try discriminate Hin|]);
    try contradiction.
  injection Hin as Hpd Hn. subst pd n.
  split; [reflexivity|]. split.
  - unfold pd_of. now rewrite length_copy_reg_nums, repeat_length.
  - intro i. destruct (i <? Z.to_nat _)%nat eqn:Hi.
    + apply Nat.ltb_lt in Hi. now apply nth_pd_of.
    + apply Nat.ltb_ge in Hi. unfold pd_of.
      rewrite nth_copy_reg_nums_above by (simpl; lia).
      apply nth_repeat.
Qed.


(** *** The wait for the key *)







(** *** The end of the session *)

Lemma session_cmds_head_prefix (j : nat) evt pc cnt :
  ~ In PFM_DESTROY_CONTEXT
      (session_cmds (firstn j (session_head hdr E evt pc cnt))).
Proof.
  intro Hin.
  do 10 (destruct j as [|j];
         [simpl in Hin; intuition discriminate|]).
  unfold session_head in Hin. cbn [firstn] in Hin.
  rewrite firstn_nil in Hin. simpl in Hin. intuition discriminate.
Qed.

Lemma session_cmds_rows (n : nat) :
  forall i evts pd, session_cmds (rows_io E n i evts pd) = [].
Proof. induction n as [|n IH]; intros; simpl; auto. Qed.

Lemma session_cmds_find_calls (p : list string) :
  forall i, session_cmds (find_calls p i) = [].
Proof. induction p as [|name p IH]; intro i; simpl; auto. Qed.





(** X12: a run returns 0 exactly when it has sent all eight commands to
    [perfmonctl] and written nothing to [stderr]. *)
Theorem return_zero_iff_complete_and_silent (argv : list string) (k : K) :
  fst (run hdr E argv k) = Done 0
  <-> (session_cmds (w_trace (snd (run hdr E argv k))) = session_order
       /\ stderr_of (w_trace (snd (run hdr E argv k))) = []).
Proof.
  destruct (main_run_shape hdr E argv k)
    as [Hi | Hi Hm | good bad rest Hi Hm Hp Hg Hb | r pc cnt Hi Hm Hok Hd Hr
        | pc cnt j msg Hreach Hj | pc cnt kr msg Hreach | pc cnt kr Hreach];
    (split; [intro Hdone; try discriminate Hdone|intros [Hcmds Herr]]);
    try reflexivity.
  - discriminate Hcmds.
  - discriminate Hcmds.
  - exfalso. rewrite !session_cmds_app, session_cmds_find_calls in Hcmds.
    discriminate Hcmds.
  - exfalso. rewrite session_cmds_app, session_cmds_prelude in Hcmds.
    discriminate Hcmds.
  - exfalso. rewrite !session_cmds_app, session_cmds_prelude in Hcmds.
    simpl in Hcmds. rewrite app_nil_r in Hcmds.
    apply (session_cmds_head_prefix j (evt_of hdr E (requested argv)) pc cnt).
    rewrite Hcmds. simpl. tauto.
  - exfalso. rewrite !stderr_of_app, stderr_of_prelude in Herr.
    unfold result_rows in Herr. rewrite stderr_of_rows in Herr.
    discriminate Herr.
  - split.
    + rewrite !session_cmds_app, session_cmds_prelude. unfold result_rows.
      rewrite session_cmds_rows. reflexivity.
    + rewrite !stderr_of_app, stderr_of_prelude. unfold result_rows.
      now rewrite stderr_of_rows.
Qed.

(** *** Failures before the session *)

(** X13: with the library initialised and the check passed, when some
    requested name does not resolve the program looks up the names before
    it and that name, no later one, reports "Cannot find <name> event" for
    the first name that failed and exits with status 1; the kernel is as
    it was. *)
Theorem first_unresolved_name_is_reported (argv : list string) (k : K)
  (good : list string) (bad : string) (rest : list string) :
  pfm_initialize E = PFMLIB_SUCCESS hdr ->
  Z.of_nat (List.length argv) - 1 <= pfm_get_num_counters E ->
  requested argv = (good ++ bad :: rest)%list ->
  forallb (resolves hdr E) good = true ->
  resolves hdr E bad = false ->
  run hdr E argv k
  = (Exit 1,
     {| w_kernel := k;
        w_trace :=
          lib_prelude ++ find_calls (good ++ [bad]) 0
          ++ [Stderr ("Cannot find " ++ bad ++ " event" ++ nl)] |}).
Proof.
  intros Hinit Hfew Hreq Hgood Hbad.
  unfold run, main. rewrite (requested_eq argv). reduce.
  apply Z.eqb_eq in Hinit. rewrite Hinit.
  assert (Hcheck : (Z.of_nat (List.length argv) - 1 >? pfm_get_num_counters E)
                   = false).
  { rewrite Z.gtb_ltb. apply Z.ltb_ge. exact Hfew. }
  rewrite Hcheck. unfold monitor. reduce.
  rewrite Hreq, (find_events_unknown hdr E) by assumption.
  unfold lib_prelude. cbv beta iota.
  now rewrite <- !app_assoc.
Qed.

(** X14: when every name resolves and [pfm_dispatch_events] returns a
    status [r] other than [PFMLIB_SUCCESS], the program reports "cannot
    configure events: " followed by [pfm_strerror(r)] and exits with
    status 1 without a call of [perfmonctl]; the kernel is as it was. *)
Theorem refused_dispatch_is_reported (argv : list string) (k : K)
  (r : Z) (pc : list pfarg_reg_t) (cnt : Z) :
  pfm_initialize E = PFMLIB_SUCCESS hdr ->
  Z.of_nat (List.length argv) - 1 <= pfm_get_num_counters E ->
  forallb (resolves hdr E) (requested argv) = true ->
  dispatched hdr E argv = (r, pc, cnt) ->
  r <> PFMLIB_SUCCESS hdr ->
  run hdr E argv k
  = (Exit 1,
     {| w_kernel := k;
        w_trace :=
          dispatch_prelude hdr E (requested argv)
          ++ [Stderr ("cannot configure events: " ++ pfm_strerror E r ++ nl)]
     |}).
Proof.
  intros Hinit Hfew Hok Hdisp Hr.
  unfold run, main. rewrite (requested_eq argv). reduce.
  apply Z.eqb_eq in Hinit. rewrite Hinit.
  assert (Hcheck : (Z.of_nat (List.length argv) - 1 >? pfm_get_num_counters E)
                   = false).
  { rewrite Z.gtb_ltb. apply Z.ltb_ge. exact Hfew. }
  rewrite Hcheck. unfold monitor. reduce.
  rewrite (find_events_ok hdr E) by assumption. reduce.
  change (0 + List.length (requested argv))%nat
    with (List.length (requested argv)).
  fold (evt_of hdr E (requested argv)).
  unfold dispatched in Hdisp. rewrite Hdisp.
  apply Z.eqb_neq in Hr. rewrite Hr.
  unfold dispatch_prelude, lib_prelude. cbv beta iota.
  now rewrite <- !app_assoc.
Qed.


(** *** The session, call by call *)

Ltac replay :=
  cbn [calls_succeed kernel_after session_head app];
  cbv beta iota zeta delta
    [bind sys_perfmonctl get_errno fatal_error printf emit exit ret
     sys_getchar w_kernel w_trace log fst snd negb andb pd_of].

Lemma session_exact evt pc cnt (w : world K) :
  (calls_succeed E (w_kernel w)
     (session_head hdr E evt pc cnt
      ++ [Sys_perfmonctl (getpid E) PFM_DESTROY_CONTEXT Arg_null 0]) = true
   /\ session hdr E evt pc cnt w
      = (Done 0,
         {| w_kernel :=
              kernel_after E (w_kernel w)
                (session_head hdr E evt pc cnt
                 ++ [Sys_perfmonctl (getpid E) PFM_DESTROY_CONTEXT
                       Arg_null 0]);
            w_trace :=
              w_trace w
              ++ session_head hdr E evt pc cnt
              ++ result_rows hdr E evt pc
                   (kernel_after E (w_kernel w)
                      (session_head hdr E evt pc cnt))
              ++ [Sys_perfmonctl (getpid E) PFM_DESTROY_CONTEXT
                    Arg_null 0] |}))
  \/ (calls_succeed E (w_kernel w)
        (session_head hdr E evt pc cnt
         ++ [Sys_perfmonctl (getpid E) PFM_DESTROY_CONTEXT Arg_null 0])
      = false
      /\ fst (session hdr E evt pc cnt w) = Exit 1).
Proof.
  destruct w as [k0 t0]. unfold session, result_rows, pd_of. replay.
  call r1 k1. replay.
  destruct (r1 =? -1).
  { right. destruct (errno E k1 =? ENOSYS hdr); split; reflexivity. }
  call r2 k2. replay.
  destruct (r2 =? -1); [right; split; reflexivity|].
  call r3 k3. replay.
  destruct (r3 =? -1); [right; split; reflexivity|].
  call r4 k4. replay.
  destruct (r4 =? -1); [right; split; reflexivity|].
  call r5 k5. replay.
  destruct (r5 =? -1); [right; split; reflexivity|].
  call r6 k6. replay.
  destruct (r6 =? -1); [right; split; reflexivity|].
  call r7 k7. replay.
  destruct (r7 =? -1); [right; split; reflexivity|].
  rewrite (print_results_run E). replay.
  call r8 k8. replay.
  destruct (r8 =? -1); [right; split; reflexivity|].
  left. split; [reflexivity|].
  rewrite <- ?app_assoc. reflexivity.
Qed.


Lemma session_steps_reached (argv : list string) pc cnt :
  reaches_session hdr E argv pc cnt ->
  session_steps hdr E argv
  = (session_head hdr E (evt_of hdr E (requested argv)) pc cnt
     ++ [Sys_perfmonctl (getpid E) PFM_DESTROY_CONTEXT Arg_null 0])%list
  /\ kernel_at_read hdr E argv
     = (fun k => kernel_after E k
                   (session_head hdr E (evt_of hdr E (requested argv)) pc cnt)).
Proof.
  intros (_ & _ & _ & Hd).
  unfold session_steps, kernel_at_read, dispatched. now rewrite Hd.
Qed.

Lemma succeeds_reaches (argv : list string) (k : K) :
  every_call_succeeds hdr E argv k ->
  reaches_session hdr E argv (snd (fst (dispatched hdr E argv)))
    (snd (dispatched hdr E argv)).
Proof.
  intros (Hi & Hm & Hok & Hd & _). repeat split; try assumption.
  unfold dispatched in *.
  destruct (pfm_dispatch_events E _ _ _) as [[r pc] cnt].
  simpl in *. now subst r.
Qed.

(** The outcome of a run, from the answers to its calls. *)
Lemma run_outcome (argv : list string) (k : K) :
  (every_call_succeeds hdr E argv k /\ fst (run hdr E argv k) = Done 0)
  \/ (~ every_call_succeeds hdr E argv k
      /\ fst (run hdr E argv k) = Exit 1).
Proof.
  destruct (run_calls hdr E argv k) as (j & Hcalls & _ & Hreach & Hall).
  destruct j as [|j].
  - right. split.
    + intro Hevery. pose proof (succeeds_reaches argv k Hevery) as Hr.
      destruct (reached_calls_create argv k _ _ Hr) as (rest & Hc).
      rewrite Hc in Hcalls. discriminate Hcalls.
    + destruct (main_run_shape hdr E argv k); try reflexivity.
      exfalso. discriminate (Hall eq_refl).
  - destruct Hreach as (pc & cnt & Hr); [lia|].
    destruct (session_steps_reached argv pc cnt Hr) as [Hsteps _].
    rewrite (run_reaches_session argv k pc cnt Hr).
    destruct (session_exact (evt_of hdr E (requested argv)) pc cnt
                {| w_kernel := k;
                   w_trace := dispatch_prelude hdr E (requested argv) |})
      as [[Hok Hrun] | [Hfail Hexit]]; cbn [w_kernel] in *.
    + left. split; [|now rewrite Hrun].
      destruct Hr as (Hi & Hm & Hres & Hd).
      repeat split; try assumption.
      * unfold dispatched. now rewrite Hd.
      * now rewrite Hsteps.
    + right. split; [|exact Hexit].
      intros (_ & _ & _ & _ & Hsucc).
      rewrite Hsteps, Hfail in Hsucc. discriminate Hsucc.
Qed.

(** C10: [fatal_error] always ends the process with status 1.  A run in
    which no checked call fails returns 0; a run in which one fails, be
    it the library's initialisation, the capacity check, a lookup, the
    dispatch or any of the eight [perfmonctl] commands, the read of the
    counters among them, exits with status 1.  So the status is 0 or 1
    and never -1: the [return -1] after the failed read is dead. *)
Theorem exit_status_zero_or_one (argv : list string) (k : K) :
  (forall msg (w : world K), fst (fatal_error msg w) = Exit 1)
  /\ (every_call_succeeds hdr E argv k ->
      fst (run hdr E argv k) = Done 0
      /\ exit_status (fst (run hdr E argv k)) = 0)
  /\ (~ every_call_succeeds hdr E argv k ->
      fst (run hdr E argv k) = Exit 1
      /\ exit_status (fst (run hdr E argv k)) = 1)
  /\ (fst (run hdr E argv k) = Done 0 \/ fst (run hdr E argv k) = Exit 1)
  /\ (exit_status (fst (run hdr E argv k)) = 0
      \/ exit_status (fst (run hdr E argv k)) = 1)
  /\ exit_status (fst (run hdr E argv k)) <> -1.
Proof.
  split; [reflexivity|].
  destruct (run_outcome argv k) as [[Hevery Hdone] | [Hnot Hexit]].
  - rewrite Hdone. simpl.
    split; [intros _; split; reflexivity|].
    split; [intro Hnot; contradiction|].
    split; [left; reflexivity|].
    split; [left; reflexivity|discriminate].
  - rewrite Hexit. simpl.
    split; [intro Hevery; contradiction|].
    split; [intros _; split; reflexivity|].
    split; [right; reflexivity|].
    split; [right; reflexivity|discriminate].
Qed.

(** *** The result lines, character by character *)

Lemma string_app_assoc (a b c : string) :
  ((a ++ b) ++ c = a ++ (b ++ c))%string.
Proof. induction a as [|x a IH]; simpl; [reflexivity|]. now rewrite IH. Qed.

Lemma to_uint_nonnil (n : N) : N.to_uint n <> Decimal.Nil.
Proof.
  destruct n as [|p]; [discriminate|].
  apply DecimalPos.Unsigned.to_uint_nonnil.
Qed.

(** What [%u] and [%lu] print reads back as the argument, taken as an
    unsigned integer of [w] bits. *)
Lemma decimal_value_fmt_u (w z : Z) :
  0 <= w -> decimal_value (fmt_u w z) = Some (z mod 2 ^ w).
Proof.
  intro Hw. unfold decimal_value, fmt_u.
  rewrite NilZero.usu by apply to_uint_nonnil.
  simpl. rewrite DecimalN.Unsigned.of_to.
  rewrite Z2N.id; [reflexivity|].
  apply Z.mod_pos_bound. apply Z.pow_pos_nonneg; lia.
Qed.

Lemma stdout_of_complete (p : list string) pc cnt kr :
  (List.length p <= PMU_MAX_COUNTERS hdr)%nat ->
  (List.length p <= NUM_PMDS hdr)%nat ->
  stdout_of
    (dispatch_prelude hdr E p
     ++ session_head hdr E (evt_of hdr E p) pc cnt
     ++ result_rows hdr E (evt_of hdr E p) pc kr
     ++ [Sys_perfmonctl (getpid E) PFM_DESTROY_CONTEXT Arg_null 0])
  = ("<Press a key to stop monitoring>" ++ nl)
    :: ("<Monitoring stopped on CPU" ++ fmt_d WHICH_CPU ++ ">" ++ nl ++ nl)
    :: map (fun i => expected_row E pc kr i (nth i p ""))
           (seq 0 (List.length p)).
Proof.
  intros Hevt Hpd. unfold dispatch_prelude.
  rewrite !stdout_of_app, stdout_of_find_calls.
  unfold result_rows. rewrite (stdout_of_rows E).
  cbn [evt_of pfp_count pfp_evt]. rewrite Nat2Z.id.
  simpl. rewrite app_nil_r. do 2 f_equal.
  apply map_ext_in. intros i Hi. apply in_seq in Hi.
  unfold expected_row. f_equal.
  - rewrite (nth_store_pmds E);
      [|unfold pd_of; rewrite length_copy_reg_nums, repeat_length;
        cbn [evt_of pfp_count]; rewrite ?Nat2Z.id; exact Hpd
       |lia].
    rewrite nth_pd_of; cbn [evt_of pfp_count]; rewrite ?Nat2Z.id;
      [reflexivity|exact Hpd|lia].
  - f_equal.
    apply (nth_store_events E p 0 _ i);
      [rewrite repeat_length; simpl; exact Hevt|lia].
Qed.

(** C6: a run that returns 0 has printed, after its two messages, one
    line for each requested event, in the order of the request.  The
    [i]-th line reads "PMD", the register of [pc[i]] in decimal, a space,
    the counter value in decimal, right-justified in 20 columns, a space,
    the name the library gives to the descriptor of the [i]-th requested
    event, and a newline.  The value is the one the kernel holds for that
    register in the state in which [PFM_READ_PMDS] returned, as an
    unsigned 64-bit integer. *)
Theorem result_rows_follow_request (argv : list string) (k : K) :
  fst (run hdr E argv k) = Done 0 ->
  (List.length (requested argv) <= PMU_MAX_COUNTERS hdr)%nat ->
  (List.length (requested argv) <= NUM_PMDS hdr)%nat ->
  exists rows,
    stdout_of (w_trace (snd (run hdr E argv k)))
    = String.append "<Press a key to stop monitoring>"
        (String "010"%char EmptyString)
      :: String.append "<Monitoring stopped on CPU0>"
           (String "010"%char (String "010"%char EmptyString))
      :: rows
    /\ List.length rows = List.length (requested argv)
    /\ forall i,
         (i < List.length (requested argv))%nat ->
         exists sreg sval,
           nth i rows EmptyString
           = String.append "PMD"
               (String.append sreg
                  (String.append " "
                     (String.append
                        (string_of_list_ascii
                           (repeat " "%char (20 - String.length sval)))
                        (String.append sval
                           (String.append " "
                              (String.append
                                 (pfm_get_event_name E
                                    (snd (pfm_find_event E
                                            (nth i (requested argv) "") 0)))
                                 (String "010"%char EmptyString)))))))
           /\ decimal_value sreg
              = Some (reg_num
                        (nth i (snd (fst (dispatched hdr E argv))) zero_reg)
                      mod 2 ^ 32)
           /\ decimal_value sval
              = Some (read_pmd E (kernel_at_read hdr E argv k)
                        (reg_num
                           (nth i (snd (fst (dispatched hdr E argv)))
                              zero_reg))
                      mod 2 ^ 64).
Proof.
  intros Hdone Hevt Hpd.
  destruct (run_calls hdr E argv k) as (j & _ & _ & Hreach & Hall).
  destruct Hreach as (pc & cnt & Hr); [rewrite (Hall Hdone); lia|].
  destruct (session_steps_reached argv pc cnt Hr) as [_ Hkr].
  assert (Hpc : snd (fst (dispatched hdr E argv)) = pc).
  { destruct Hr as (_ & _ & _ & Hd). unfold dispatched. now rewrite Hd. }
  rewrite Hkr, Hpc. clear Hkr Hpc.
  rewrite (run_reaches_session argv k pc cnt Hr) in *.
  destruct (session_exact (evt_of hdr E (requested argv)) pc cnt
              {| w_kernel := k;
                 w_trace := dispatch_prelude hdr E (requested argv) |})
    as [[_ Hrun] | [_ Hexit]]; [|rewrite Hexit in Hdone; discriminate Hdone].
  rewrite Hrun. cbn [snd w_trace w_kernel].
  rewrite stdout_of_complete by assumption.
  eexists. split; [reflexivity|]. split.
  - now rewrite length_map, length_seq.
  - intros i Hi.
    set (f := fun i0 : nat => expected_row E pc _ i0 (nth i0 (requested argv) "")).
    rewrite (nth_indep _ EmptyString (f 0%nat))
      by (rewrite length_map, length_seq; exact Hi).
    rewrite map_nth, seq_nth by exact Hi. unfold f. cbn [Nat.add].
    unfold expected_row, result_row, pad_left. cbn [reg_num reg_value].
    eexists (fmt_u 32 _), (fmt_u 64 _). split; [|split].
    + rewrite (string_app_assoc (string_of_list_ascii _)). reflexivity.
    + apply decimal_value_fmt_u. lia.
    + rewrite decimal_value_fmt_u by lia. f_equal.
      apply Z.mod_mod. lia.
Qed.

End MoreRuns.

(** ** More runs on the Itanium-like environment *)

Lemma failed_call_is_reported_witness :
  fst (run itanium_headers (demo_env_refusing_start itanium_pmu) ["syst"]
         demo_kernel0) = Exit 1
  /\ session_cmds
       (w_trace (snd (run itanium_headers
                        (demo_env_refusing_start itanium_pmu) ["syst"]
                        demo_kernel0)))
     = ([PFM_CREATE_CONTEXT; PFM_ENABLE; PFM_WRITE_PMCS; PFM_WRITE_PMDS]
        ++ [PFM_START])%list
  /\ exists pre,
       w_trace (snd (run itanium_headers
                       (demo_env_refusing_start itanium_pmu) ["syst"]
                       demo_kernel0))
       = (pre
          ++ [Stderr
                (failure_message itanium_headers
                   (demo_env_refusing_start itanium_pmu) PFM_START
                   (errno (demo_env_refusing_start itanium_pmu)
                      (w_kernel
                         (snd (run itanium_headers
                                 (demo_env_refusing_start itanium_pmu)
                                 ["syst"] demo_kernel0)))))])%list
       /\ stderr_of pre = [].
Proof.
  assert (Hexit :
    fst (run itanium_headers (demo_env_refusing_start itanium_pmu) ["syst"]
           demo_kernel0) = Exit 1) by (vm_compute; reflexivity).
  assert (Hcmds :
    session_cmds
      (w_trace (snd (run itanium_headers
                       (demo_env_refusing_start itanium_pmu) ["syst"]
                       demo_kernel0)))
    = ([PFM_CREATE_CONTEXT; PFM_ENABLE; PFM_WRITE_PMCS; PFM_WRITE_PMDS]
       ++ [PFM_START])%list) by (vm_compute; reflexivity).
  split; [exact Hexit|]. split; [exact Hcmds|].
  exact (failed_call_is_reported itanium_headers
           (demo_env_refusing_start itanium_pmu) ["syst"] demo_kernel0
           _ _ Hexit Hcmds).
Defined.

(** A refused [PFM_START] is reported in the words of [PFM_WRITE_PMCS]. *)
Example refused_start_message :
  stderr_of
    (w_trace (snd (run itanium_headers (demo_env_refusing_start itanium_pmu)
                     ["syst"] demo_kernel0)))
  = ["child: perfmonctl error PFM_WRITE_PMCS errno 16" ++ nl].
Proof. vm_compute. reflexivity. Qed.

Lemma kernel_untouched_before_session_witness :
  session_calls
    (w_trace (snd (run itanium_headers (demo_env itanium_pmu)
                     ["syst"; "bogus_event"] demo_kernel0))) = []
  /\ fst (run itanium_headers (demo_env itanium_pmu)
            ["syst"; "bogus_event"] demo_kernel0) = Exit 1
  /\ w_kernel (snd (run itanium_headers (demo_env itanium_pmu)
                      ["syst"; "bogus_event"] demo_kernel0)) = demo_kernel0.
Proof.
  assert (Hnone :
    session_calls
      (w_trace (snd (run itanium_headers (demo_env itanium_pmu)
                       ["syst"; "bogus_event"] demo_kernel0))) = [])
    by (vm_compute; reflexivity).
  split; [exact Hnone|].
  exact (kernel_untouched_before_session itanium_headers
           (demo_env itanium_pmu) ["syst"; "bogus_event"] demo_kernel0 Hnone).
Defined.

Lemma lookup_slots_in_bounds_witness :
  pfm_get_num_counters (demo_env itanium_pmu)
  <= Z.of_nat (PMU_MAX_COUNTERS itanium_headers)
  /\ (2 <= PMU_MAX_COUNTERS itanium_headers)%nat
  /\ In (Lib_find_event "IA64_INST_RETIRED" 1)
       (w_trace (snd (run itanium_headers (demo_env itanium_pmu) ["syst"]
                        demo_kernel0)))
  /\ (1 < PMU_MAX_COUNTERS itanium_headers)%nat.
Proof.
  assert (Hcap : pfm_get_num_counters (demo_env itanium_pmu)
                 <= Z.of_nat (PMU_MAX_COUNTERS itanium_headers))
    by (simpl; lia).
  assert (Htwo : (2 <= PMU_MAX_COUNTERS itanium_headers)%nat)
    by (simpl; lia).
  assert (Hin :
    In (Lib_find_event "IA64_INST_RETIRED" 1)
       (w_trace (snd (run itanium_headers (demo_env itanium_pmu) ["syst"]
                        demo_kernel0)))).
  { vm_compute. do 4 right. left. reflexivity. }
  split; [exact Hcap|]. split; [exact Htwo|]. split; [exact Hin|].
  exact (lookup_slots_in_bounds itanium_headers (demo_env itanium_pmu)
           ["syst"] demo_kernel0 _ _ Hcap Htwo Hin).
Defined.

Lemma pmd_arguments_mirror_pmcs_witness :
  exists pd,
    In (PFM_WRITE_PMDS, Arg_regs pd, 2)
       (session_calls
          (w_trace (snd (run itanium_headers (demo_env itanium_pmu)
                           ["syst"; "L2_MISSES"; "cpu_cycles"]
                           demo_kernel0))))
    /\ List.length pd = NUM_PMDS itanium_headers
    /\ nth 0 pd zero_reg = {| reg_num := 6; reg_value := 0 |}
    /\ nth 1 pd zero_reg = {| reg_num := 4; reg_value := 0 |}
    /\ nth 2 pd zero_reg = zero_reg.
Proof.
  set (argv := ["syst"; "L2_MISSES"; "cpu_cycles"]).
  set (pd := pd_of itanium_headers
               (evt_of itanium_headers (demo_env itanium_pmu)
                  (requested argv))
               (snd (fst (dispatched itanium_headers (demo_env itanium_pmu)
                            argv)))).
  assert (Hin :
    In (PFM_WRITE_PMDS, Arg_regs pd, 2)
       (session_calls
          (w_trace (snd (run itanium_headers (demo_env itanium_pmu) argv
                           demo_kernel0))))).
  { vm_compute. do 3 right. left. reflexivity. }
  assert (Hfit : (Z.to_nat 2 <= NUM_PMDS itanium_headers)%nat)
    by (vm_compute; lia).
  destruct (pmd_arguments_mirror_pmcs itanium_headers (demo_env itanium_pmu)
              argv demo_kernel0 pd 2 Hin Hfit) as (_ & Hlen & Hnth).
  exists pd. split; [exact Hin|]. split; [exact Hlen|].
  rewrite (Hnth 0%nat), (Hnth 1%nat), (Hnth 2%nat).
  repeat split; vm_compute; reflexivity.
Defined.



(** A run that stops at [PFM_START] leaves the context it created. *)
Example context_left_after_refused_start :
  session_cmds
    (w_trace (snd (run itanium_headers (demo_env_refusing_start itanium_pmu)
                     ["syst"] demo_kernel0)))
  = [PFM_CREATE_CONTEXT; PFM_ENABLE; PFM_WRITE_PMCS; PFM_WRITE_PMDS;
     PFM_START].
Proof. vm_compute. reflexivity. Qed.

Lemma first_unresolved_name_is_reported_witness :
  pfm_initialize (demo_env itanium_pmu) = PFMLIB_SUCCESS itanium_headers
  /\ requested ["syst"; "cpu_cycles"; "bogus_event"; "L2_MISSES"]
     = (["cpu_cycles"] ++ "bogus_event" :: ["L2_MISSES"])%list
  /\ run itanium_headers (demo_env itanium_pmu)
       ["syst"; "cpu_cycles"; "bogus_event"; "L2_MISSES"] demo_kernel0
     = (Exit 1,
        {| w_kernel := demo_kernel0;
           w_trace :=
             lib_prelude ++ find_calls (["cpu_cycles"] ++ ["bogus_event"]) 0
             ++ [Stderr ("Cannot find " ++ "bogus_event" ++ " event" ++ nl)]
        |}).
Proof.
  split; [reflexivity|]. split; [reflexivity|].
  apply (first_unresolved_name_is_reported itanium_headers
           (demo_env itanium_pmu)
           ["syst"; "cpu_cycles"; "bogus_event"; "L2_MISSES"] demo_kernel0
           ["cpu_cycles"] "bogus_event" ["L2_MISSES"]).
  - reflexivity.
  - simpl. lia.
  - reflexivity.
  - vm_compute. reflexivity.
  - vm_compute. reflexivity.
Defined.

Lemma refused_dispatch_is_reported_witness :
  dispatched itanium_headers (demo_env one_counter_pmu) ["syst"]
  = (-2, repeat zero_reg 16, 16)
  /\ run itanium_headers (demo_env one_counter_pmu) ["syst"] demo_kernel0
     = (Exit 1,
        {| w_kernel := demo_kernel0;
           w_trace :=
             dispatch_prelude itanium_headers (demo_env one_counter_pmu)
               (requested ["syst"])
             ++ [Stderr ("cannot configure events: "
                         ++ pfm_strerror (demo_env one_counter_pmu) (-2)
                         ++ nl)] |}).
Proof.
  assert (Hdisp :
    dispatched itanium_headers (demo_env one_counter_pmu) ["syst"]
    = (-2, repeat zero_reg 16, 16)) by (vm_compute; reflexivity).
  split; [exact Hdisp|].
  apply (refused_dispatch_is_reported itanium_headers
           (demo_env one_counter_pmu) ["syst"] demo_kernel0
           (-2) (repeat zero_reg 16) 16).
  - reflexivity.
  - simpl. lia.
  - vm_compute. reflexivity.
  - exact Hdisp.
  - simpl. lia.
Defined.

(** The default list on a platform with one counter: two events are
    requested against a capacity of 1, yet nothing is printed on
    [stdout]; both names are looked up and the dispatch is attempted, and
    the error comes from there.  And when the library does not
    initialise, five events against four counters are answered with the
    initialisation error. *)
Lemma default_list_over_capacity_passes_check :
  (pfm_initialize (demo_env one_counter_pmu) = PFMLIB_SUCCESS itanium_headers
   /\ Z.of_nat (List.length (requested ["syst"]))
      > pfm_get_num_counters (demo_env one_counter_pmu)
   /\ fst (run itanium_headers (demo_env one_counter_pmu) ["syst"]
             demo_kernel0) = Exit 1
   /\ stdout_of
        (w_trace (snd (run itanium_headers (demo_env one_counter_pmu)
                         ["syst"] demo_kernel0))) = []
   /\ lookups
        (w_trace (snd (run itanium_headers (demo_env one_counter_pmu)
                         ["syst"] demo_kernel0)))
      = [("cpu_cycles", 0%nat); ("IA64_INST_RETIRED", 1%nat)]
   /\ List.length
        (dispatch_calls
           (w_trace (snd (run itanium_headers (demo_env one_counter_pmu)
                            ["syst"] demo_kernel0)))) = 1%nat
   /\ stderr_of
        (w_trace (snd (run itanium_headers (demo_env one_counter_pmu)
                         ["syst"] demo_kernel0)))
      = [String.append "cannot configure events: error -2"
           (String "010"%char EmptyString)])
  /\ (Z.of_nat (List.length ["syst"; "e1"; "e2"; "e3"; "e4"; "e5"]) - 1
      > pfm_get_num_counters (demo_env_no_library itanium_pmu)
      /\ fst (run itanium_headers (demo_env_no_library itanium_pmu)
                ["syst"; "e1"; "e2"; "e3"; "e4"; "e5"] demo_kernel0) = Exit 1
      /\ stdout_of
           (w_trace (snd (run itanium_headers
                            (demo_env_no_library itanium_pmu)
                            ["syst"; "e1"; "e2"; "e3"; "e4"; "e5"]
                            demo_kernel0)))
         = [String.append "Can't initialize library"
              (String "010"%char EmptyString)]).
Proof.
  split.
  - split; [reflexivity|]. split; [simpl; lia|].
    repeat split; vm_compute; reflexivity.
  - split; [simpl; lia|]. split; vm_compute; reflexivity.
Qed.

Lemma result_rows_follow_request_witness :
  fst (run itanium_headers (demo_env itanium_pmu)
         ["syst"; "L2_MISSES"; "cpu_cycles"] demo_kernel0) = Done 0
  /\ exists rows,
       stdout_of
         (w_trace (snd (run itanium_headers (demo_env itanium_pmu)
                          ["syst"; "L2_MISSES"; "cpu_cycles"] demo_kernel0)))
       = String.append "<Press a key to stop monitoring>"
           (String "010"%char EmptyString)
         :: String.append "<Monitoring stopped on CPU0>"
              (String "010"%char (String "010"%char EmptyString))
         :: rows
       /\ List.length rows
          = List.length (requested ["syst"; "L2_MISSES"; "cpu_cycles"])
       /\ exists sreg sval,
            nth 0 rows EmptyString
            = String.append "PMD"
                (String.append sreg
                   (String.append " "
                      (String.append
                         (string_of_list_ascii
                            (repeat " "%char (20 - String.length sval)))
                         (String.append sval
                            (String.append " "
                               (String.append "L2_MISSES"
                                  (String "010"%char EmptyString)))))))
            /\ decimal_value sreg = Some 6
            /\ decimal_value sval = Some 6000.
Proof.
  set (argv := ["syst"; "L2_MISSES"; "cpu_cycles"]).
  assert (Hdone :
    fst (run itanium_headers (demo_env itanium_pmu) argv demo_kernel0)
    = Done 0) by (vm_compute; reflexivity).
  split; [exact Hdone|].
  destruct (result_rows_follow_request itanium_headers (demo_env itanium_pmu)
              argv demo_kernel0 Hdone
              ltac:(vm_compute; lia) ltac:(vm_compute; lia))
    as (rows & Hout & Hlen & Hrow).
  exists rows. split; [exact Hout|]. split; [exact Hlen|].
  destruct (Hrow 0%nat ltac:(vm_compute; lia)) as (sreg & sval & H0 & Hr & Hv).
  exists sreg, sval. split; [exact H0|]. split.
  - rewrite Hr. vm_compute. reflexivity.
  - rewrite Hv. vm_compute. reflexivity.
Defined.

Lemma exit_status_zero_or_one_witness :
  (every_call_succeeds itanium_headers (demo_env itanium_pmu) ["syst"]
     demo_kernel0
   /\ fst (run itanium_headers (demo_env itanium_pmu) ["syst"] demo_kernel0)
      = Done 0
   /\ exit_status
        (fst (run itanium_headers (demo_env itanium_pmu) ["syst"]
                demo_kernel0)) = 0)
  /\ (~ every_call_succeeds itanium_headers
          (demo_env_refusing_read itanium_pmu) ["syst"] demo_kernel0
      /\ fst (run itanium_headers (demo_env_refusing_read itanium_pmu)
                ["syst"] demo_kernel0) = Exit 1
      /\ exit_status
           (fst (run itanium_headers (demo_env_refusing_read itanium_pmu)
                   ["syst"] demo_kernel0)) = 1).
Proof.
  assert (Hall :
    every_call_succeeds itanium_headers (demo_env itanium_pmu) ["syst"]
      demo_kernel0).
  { repeat split; vm_compute; solve [reflexivity | discriminate]. }
  assert (Hnot :
    ~ every_call_succeeds itanium_headers
        (demo_env_refusing_read itanium_pmu) ["syst"] demo_kernel0).
  { intros (_ & _ & _ & _ & Hsucc). vm_compute in Hsucc.
    discriminate Hsucc. }
  split.
  - split; [exact Hall|].
    exact (proj1 (proj2 (exit_status_zero_or_one itanium_headers
                           (demo_env itanium_pmu) ["syst"] demo_kernel0))
             Hall).
  - split; [exact Hnot|].
    exact (proj1 (proj2 (proj2 (exit_status_zero_or_one itanium_headers
                                  (demo_env_refusing_read itanium_pmu)
                                  ["syst"] demo_kernel0)))
             Hnot).
Defined.

(** A refused [PFM_READ_PMDS] ends the run with status 1 and the message
    of the read; no result line is printed. *)
Example refused_read_exits_with_one :
  exit_status
    (fst (run itanium_headers (demo_env_refusing_read itanium_pmu) ["syst"]
            demo_kernel0)) = 1
  /\ stderr_of
       (w_trace (snd (run itanium_headers (demo_env_refusing_read itanium_pmu)
                        ["syst"] demo_kernel0)))
     = [String.append "perfmonctl error READ_PMDS errno 22"
          (String "010"%char EmptyString)]
  /\ List.length
       (stdout_of
          (w_trace (snd (run itanium_headers
                           (demo_env_refusing_read itanium_pmu) ["syst"]
                           demo_kernel0)))) = 2%nat.
Proof. repeat split; vm_compute; reflexivity. Qed.

Lemma one_report_per_failure_witness :
  (pfm_initialize (demo_env_no_library itanium_pmu)
   <> PFMLIB_SUCCESS itanium_headers
   /\ w_trace (snd (run itanium_headers (demo_env_no_library itanium_pmu)
                      ["syst"] demo_kernel0))
      = [Lib_initialize; Stdout ("Can't initialize library" ++ nl)])
  /\ (Z.of_nat (List.length ["syst"; "e1"; "e2"; "e3"; "e4"; "e5"]) - 1
      > pfm_get_num_counters (demo_env itanium_pmu)
      /\ w_trace (snd (run itanium_headers (demo_env itanium_pmu)
                         ["syst"; "e1"; "e2"; "e3"; "e4"; "e5"]
                         demo_kernel0))
         = [Lib_initialize; Lib_get_num_counters;
            Stdout ("Too many events specified" ++ nl)])
  /\ (Z.of_nat (List.length ["syst"; "bogus_event"]) - 1
      <= pfm_get_num_counters (demo_env itanium_pmu)
      /\ ((fst (run itanium_headers (demo_env itanium_pmu)
                  ["syst"; "bogus_event"] demo_kernel0) = Done 0
           /\ stderr_of
                (w_trace (snd (run itanium_headers (demo_env itanium_pmu)
                                 ["syst"; "bogus_event"] demo_kernel0))) = [])
          \/ (fst (run itanium_headers (demo_env itanium_pmu)
                     ["syst"; "bogus_event"] demo_kernel0) = Exit 1
              /\ exists pre msg,
                   w_trace (snd (run itanium_headers (demo_env itanium_pmu)
                                   ["syst"; "bogus_event"] demo_kernel0))
                   = (pre ++ [Stderr msg])%list
                   /\ stderr_of pre = []))).
Proof.
  assert (Hno : pfm_initialize (demo_env_no_library itanium_pmu)
                <> PFMLIB_SUCCESS itanium_headers) by (simpl; lia).
  assert (Hmany : Z.of_nat (List.length ["syst"; "e1"; "e2"; "e3"; "e4"; "e5"]) - 1
                  > pfm_get_num_counters (demo_env itanium_pmu))
    by (simpl; lia).
  assert (Hfew : Z.of_nat (List.length ["syst"; "bogus_event"]) - 1
                 <= pfm_get_num_counters (demo_env itanium_pmu))
    by (simpl; lia).
  split; [split; [exact Hno|]|split; [split; [exact Hmany|]|split; [exact Hfew|]]].
  - exact (proj2 (proj1 (one_report_per_failure itanium_headers
                           (demo_env_no_library itanium_pmu) ["syst"]
                           demo_kernel0) Hno)).
  - exact (proj2 (proj1 (proj2 (one_report_per_failure itanium_headers
                                  (demo_env itanium_pmu)
                                  ["syst"; "e1"; "e2"; "e3"; "e4"; "e5"]
                                  demo_kernel0)) eq_refl Hmany)).
  - exact (proj2 (proj2 (one_report_per_failure itanium_headers
                           (demo_env itanium_pmu) ["syst"; "bogus_event"]
                           demo_kernel0)) eq_refl Hfew).
Defined.
